(** * Visualization component of agent-chat-ui: extraction and dispatch

    A shallow embedding of [src/components/thread/visualization.tsx]:
    the descriptor extractor [extractVisualizationData] and the render
    dispatcher [Visualization] with its three sub-renderers.

    The TypeScript code runs on untyped JSON data, so the embedding
    works on a small model of JavaScript values with the language's own
    coercions ([||], [?.], [String], [Number], [+]).  Finite numbers
    are exact rationals: rounding and overflow of IEEE doubles are not
    part of the model; where rounding decides a property, line 306 is
    embedded a second time with round-to-nearest-even ([Binary64]).
    Property reads see the own properties of JSON data (and [length]
    and indices of arrays and strings), not members inherited from
    prototypes, and a conversion to a string or a number never throws:
    the properties that depend on either are stated for rows that are
    objects with scalar cells and for columns that name no inherited
    member.  Strings are sequences of 8-bit code units. *)

From Stdlib Require Import String Ascii List Bool Arith ZArith QArith Lia Lqa.
From Stdlib Require Import DecimalString Qround Qpower.
Import ListNotations.
Close Scope Q_scope.
Open Scope string_scope.
Open Scope nat_scope.
Set Warnings "-register-all".

(** ** JavaScript values *)

Module JS.

Inductive number : Type :=
| NaN
| Fin (q : Q).

Inductive value : Type :=
| VUndefined
| VNull
| VBool (b : bool)
| VNum (n : number)
| VStr (s : string)
| VArr (elems : list value)
| VObj (fields : list (string * value)).

(** A call either returns or throws a [TypeError]. *)
Inductive result (A : Type) : Type :=
| Return (a : A)
| Throws.
Arguments Return {A} a.
Arguments Throws {A}.

Definition bind {A B} (c : result A) (k : A -> result B) : result B :=
  match c with
  | Return a => k a
  | Throws => Throws
  end.

(** [try { c } catch { }]: the value of the block when it returns. *)
Definition try_catch {A} (c : result (option A)) : option A :=
  match c with
  | Return r => r
  | Throws => None
  end.

Definition of_nat (n : nat) : number := Fin (inject_Z (Z.of_nat n)).
Definition of_Z (z : Z) : number := Fin (inject_Z z).

Definition num_truthy (n : number) : bool :=
  match n with
  | NaN => false
  | Fin q => negb (Qeq_bool q 0%Q)
  end.

Definition str_truthy (s : string) : bool :=
  match s with
  | EmptyString => false
  | String _ _ => true
  end.

(** ToBoolean *)
Definition truthy (v : value) : bool :=
  match v with
  | VUndefined | VNull => false
  | VBool b => b
  | VNum n => num_truthy n
  | VStr s => str_truthy s
  | VArr _ | VObj _ => true
  end.

(** [v == null] *)
Definition nullish (v : value) : bool :=
  match v with
  | VUndefined | VNull => true
  | _ => false
  end.

(** [a || b] and [a && b] on values whose right operand has no effect. *)
Definition or_ (a b : value) : value := if truthy a then a else b.
Definition and_ (a b : value) : value := if truthy a then b else a.


(** [v === "s"] *)
Definition is_str (v : value) (s : string) : bool :=
  match v with
  | VStr t => String.eqb t s
  | _ => false
  end.

Definition isArray (v : value) : bool :=
  match v with
  | VArr _ => true
  | _ => false
  end.

Fixpoint assoc (k : string) (fields : list (string * value)) : value :=
  match fields with
  | [] => VUndefined
  | (k', v) :: rest => if String.eqb k' k then v else assoc k rest
  end.

Definition digit_of (c : ascii) : option nat :=
  let n := nat_of_ascii c in
  if (48 <=? n) && (n <=? 57) then Some (n - 48) else None.

Fixpoint digits_value (acc : nat) (s : string) : option nat :=
  match s with
  | EmptyString => Some acc
  | String c r =>
      match digit_of c with
      | Some d => digits_value (10 * acc + d) r
      | None => None
      end
  end.

(** A property key that is a canonical array index. *)
Definition index_of_key (k : string) : option nat :=
  match k with
  | EmptyString => None
  | String c r =>
      if Ascii.eqb c "0"
      then match r with EmptyString => Some 0 | String _ _ => None end
      else digits_value 0 k
  end.

(** [v[k]] for a [v] that is neither [undefined] nor [null]. *)
Definition getOwn (v : value) (k : string) : value :=
  match v with
  | VObj fields => assoc k fields
  | VArr elems =>
      if String.eqb k "length" then VNum (of_nat (List.length elems))
      else match index_of_key k with
           | Some i => nth i elems VUndefined
           | None => VUndefined
           end
  | VStr s =>
      if String.eqb k "length" then VNum (of_nat (String.length s))
      else match index_of_key k with
           | Some i =>
               match String.get i s with
               | Some c => VStr (String c EmptyString)
               | None => VUndefined
               end
           | None => VUndefined
           end
  | _ => VUndefined
  end.

(** [v.k]: a [TypeError] on [undefined] and [null]. *)
Definition get (v : value) (k : string) : result value :=
  if nullish v then Throws else Return (getOwn v k).

(** [v?.k] *)
Definition optget (v : value) (k : string) : value :=
  if nullish v then VUndefined else getOwn v k.

Definition num_add (a b : number) : number :=
  match a, b with
  | Fin x, Fin y => Fin (x + y)%Q
  | _, _ => NaN
  end.

Definition num_sub (a b : number) : number :=
  match a, b with
  | Fin x, Fin y => Fin (x - y)%Q
  | _, _ => NaN
  end.

Definition num_mul (a b : number) : number :=
  match a, b with
  | Fin x, Fin y => Fin (x * y)%Q
  | _, _ => NaN
  end.

(** The parts of the host that the component calls and that are not
    written in the repository: number formatting and parsing, the JSON
    parser ([None] when it throws a [SyntaxError]) and the random
    generator, read as the sequence of the draws of one call of the
    component. *)
Class Host : Type := {
  Number_toString : number -> string;
  StringToNumber : string -> number;
  JSON_parse : string -> option value;
  Math_random : nat -> Q;
  Math_random_range : forall i, (0 <= Math_random i /\ Math_random i < 1)%Q
}.

Section Coercions.
Context {host : Host}.

(** ToString; an array joins its elements with commas. *)
Fixpoint ToString (v : value) : string :=
  match v with
  | VUndefined => "undefined"
  | VNull => "null"
  | VBool true => "true"
  | VBool false => "false"
  | VNum n => Number_toString n
  | VStr s => s
  | VArr elems =>
      (fix join (l : list value) : string :=
         match l with
         | [] => EmptyString
         | x :: rest =>
             let e := match x with
                      | VUndefined | VNull => EmptyString
                      | _ => ToString x
                      end in
             match rest with
             | [] => e
             | _ :: _ => e ++ "," ++ join rest
             end
         end) elems
  | VObj _ => "[object Object]"
  end.

(** ToPrimitive on JSON data: arrays and objects become strings. *)
Definition ToPrimitive (v : value) : value :=
  match v with
  | VArr _ | VObj _ => VStr (ToString v)
  | _ => v
  end.

(** ToNumber, which is what [Number(v)] computes. *)
Definition ToNumber (v : value) : number :=
  match ToPrimitive v with
  | VUndefined => NaN
  | VNull => Fin 0%Q
  | VBool true => Fin 1%Q
  | VBool false => Fin 0%Q
  | VNum n => n
  | VStr s => StringToNumber s
  | _ => NaN
  end.

(** [a + b] *)
Definition js_add (a b : value) : value :=
  match ToPrimitive a, ToPrimitive b with
  | VStr s, pb => VStr (s ++ ToString pb)
  | pa, VStr t => VStr (ToString pa ++ t)
  | pa, pb => VNum (num_add (ToNumber pa) (ToNumber pb))
  end.

(** [a - b] and [a * b] *)
Definition js_sub (a b : value) : number := num_sub (ToNumber a) (ToNumber b).
Definition js_mul (a b : value) : number := num_mul (ToNumber a) (ToNumber b).

End Coercions.

End JS.
Import JS.

Notation "x <- c ;; k" := (bind c (fun x => k))
  (at level 61, c at next level, right associativity).

(** ** Data model *)

(** [VisualizationData].  The interface types its fields, but nothing
    checks them at run time, so each field holds a JavaScript value;
    an absent field reads as [undefined]. *)
Record VisualizationData : Type := {
  type : value;
  chart_type : value;
  x_column : value;
  y_column : value;
  title : value;
  text : value;
  spec : value;
  data_summary : value;
  image : value;
  mimeType : value
}.

(** [ChartDataPoint]: an object, as the list of its properties. *)
Definition ChartDataPoint : Type := list (string * value).

(** What the interface declares for [data_summary]: an optional array
    of samples, an optional pair of numbers, optional numbers. *)
Definition optional (p : value -> bool) (v : value) : bool :=
  match v with
  | VUndefined => true
  | _ => p v
  end.

Definition is_number (v : value) : bool :=
  match v with
  | VNum _ => true
  | _ => false
  end.

Definition is_number_pair (v : value) : bool :=
  match v with
  | VArr [VNum _; VNum _] => true
  | _ => false
  end.

Definition wt_data_summary (v : value) : bool :=
  match v with
  | VUndefined => true
  | VObj _ =>
      optional isArray (getOwn v "x_data_sample")
      && optional is_number_pair (getOwn v "y_range")
      && optional is_number (getOwn v "y_average")
      && optional is_number (getOwn v "row_count")
  | _ => false
  end.

(** ** What is rendered *)

(** The element picked by the [switch] of [renderChart]. *)
Inductive Chart : Type :=
| BarChart (data : list ChartDataPoint) (xKey yKey : value)
| LineChart (data : list ChartDataPoint) (xKey yKey : value)
| PieChart (pieData : list ChartDataPoint)
| ScatterChart (data : list ChartDataPoint) (xKey yKey : value)
| Unsupported (chartType : value).

(** The summary lines under a chart: the count shown and, when there is
    a range, the two numbers printed with [toFixed(2)]. *)
Record Footer : Type := {
  points : value;
  range : option (number * number)
}.

(** The card a sub-renderer returns. *)
Inductive Element : Type :=
| NoDataCard
| ChartCard (heading : value) (chart : Chart) (footer : option Footer)
| ImageCard (heading : value) (src : string) (alt : value)
| TextCard (heading : value) (body : value).

(** What [Visualization] returns: [null], or the wrapping [div] around
    what the chosen sub-renderer returned (which may itself be [null]). *)
Inductive Plan : Type :=
| PNull
| PWrap (child : option Element).

(** The card that ends up on screen, if any. *)
Definition visible (p : Plan) : option Element :=
  match p with
  | PNull => None
  | PWrap child => child
  end.

(** ** The renderer *)

Section Renderer.
Context {host : Host}.

(** An object literal with two computed keys: the second overwrites
    the first when both name the same property. *)
Definition point (kx : value) (x : value) (ky : value) (y : value)
  : ChartDataPoint :=
  if String.eqb (ToString kx) (ToString ky)
  then [(ToString ky, y)]
  else [(ToString kx, x); (ToString ky, y)].

(** [item[key]] on a chart data point. *)
Definition item_get (item : ChartDataPoint) (key : value) : value :=
  assoc (ToString key) item.

(** Lines 71-74. *)
Definition chartType (data : VisualizationData) : value :=
  or_ (or_ (chart_type data) (optget (spec data) "chart_type")) (VStr "bar").
Definition xColumn (data : VisualizationData) : value :=
  or_ (or_ (x_column data) (optget (spec data) "x_column")) (VStr "x").
Definition yColumn (data : VisualizationData) : value :=
  or_ (or_ (y_column data) (optget (spec data) "y_column")) (VStr "y").
Definition chartTitle (data : VisualizationData) : value :=
  or_ (or_ (title data) (optget (spec data) "title")) (VStr "Chart").

(** Lines 117-120. *)
Definition pieSlice (data : VisualizationData) (item : ChartDataPoint)
  : ChartDataPoint :=
  [("name", VStr (ToString (or_ (item_get item (xColumn data)) (VStr "Unknown"))));
   ("value", VNum (ToNumber (or_ (item_get item (yColumn data)) (VNum (Fin 0%Q)))))].

Definition pieData (data : VisualizationData) (chartData : list ChartDataPoint)
  : list ChartDataPoint :=
  map (pieSlice data) chartData.

(** Lines 84-172. *)
Definition renderChart (data : VisualizationData)
  (chartData : list ChartDataPoint) : Chart :=
  let t := chartType data in
  if is_str t "bar" then BarChart chartData (xColumn data) (yColumn data)
  else if is_str t "line" then LineChart chartData (xColumn data) (yColumn data)
  else if is_str t "pie" then PieChart (pieData data chartData)
  else if is_str t "scatter"
       then ScatterChart chartData (xColumn data) (yColumn data)
  else Unsupported t.

(** [v.toFixed(2)]: only a number has the method. *)
Definition toFixed (v : value) : result number :=
  match v with
  | VNum n => Return n
  | _ => Throws
  end.

(** Lines 180-190. *)
Definition chartFooter (data : VisualizationData)
  (chartData : list ChartDataPoint) : result (option Footer) :=
  let s := data_summary data in
  if truthy s then
    let y_range := getOwn s "y_range" in
    r <- (if truthy y_range
          then lo <- toFixed (getOwn y_range "0") ;;
               hi <- toFixed (getOwn y_range "1") ;;
               Return (Some (lo, hi))
          else Return None) ;;
    Return (Some {| points := or_ (getOwn s "row_count")
                                  (VNum (of_nat (List.length chartData)));
                    range := r |})
  else Return None.

(** Lines 64-193. *)
Definition ChartVisualization (data : VisualizationData)
  (chartData : list ChartDataPoint) : result Element :=
  match chartData with
  | [] => Return NoDataCard
  | _ :: _ =>
      f <- chartFooter data chartData ;;
      Return (ChartCard (chartTitle data) (renderChart data chartData) f)
  end.

(** Lines 198-221. *)
Definition imageUrl (data : VisualizationData) (img : string) : string :=
  if String.prefix "data:" img then img
  else "data:" ++ ToString (or_ (mimeType data) (VStr "image/png"))
       ++ ";base64," ++ img.

Definition ImageVisualization (data : VisualizationData)
  : result (option Element) :=
  if negb (truthy (image data)) then Return None
  else match image data with
       | VStr img =>
           Return (Some (ImageCard (title data) (imageUrl data img)
                           (or_ (title data) (VStr "Visualization"))))
       | _ => Throws
       end.

(** Lines 226-241. *)
Definition TextVisualization (data : VisualizationData) : option Element :=
  if negb (truthy (text data)) then None
  else Some (TextCard (title data) (text data)).

(** Line 259. *)
Definition vizType (data : VisualizationData) : value :=
  or_ (type data) (VStr "text").

(** Lines 273-274: the columns of the dispatcher have no default. *)
Definition xResolved (data : VisualizationData) : value :=
  or_ (x_column data) (optget (spec data) "x_column").
Definition yResolved (data : VisualizationData) : value :=
  or_ (y_column data) (optget (spec data) "y_column").

(** Line 279: the [filter] callback. *)
Definition keep_row (kx ky row : value) : result bool :=
  x <- get row (ToString kx) ;;
  if nullish x then Return false
  else y <- get row (ToString ky) ;;
       Return (negb (nullish y)).

Fixpoint filter_rows (kx ky : value) (rows : list value)
  : result (list value) :=
  match rows with
  | [] => Return []
  | row :: rest =>
      keep <- keep_row kx ky row ;;
      kept <- filter_rows kx ky rest ;;
      Return (if keep then row :: kept else kept)
  end.

(** Lines 280-283: the [map] callback, on a row that passed the filter. *)
Definition chart_row (kx ky row : value) : ChartDataPoint :=
  point kx (getOwn row (ToString kx))
        ky (or_ (VNum (ToNumber (getOwn row (ToString ky)))) (VNum (Fin 0%Q))).

(** Lines 276-284: the rows taken from the SQL result; none when a
    column is unresolved or no result was passed. *)
Definition authoritativeRows (data : VisualizationData)
  (sqlResult : option (list value)) : result (list ChartDataPoint) :=
  if truthy (xResolved data) && truthy (yResolved data) then
    match sqlResult with
    | Some rows =>
        kept <- filter_rows (xResolved data) (yResolved data) rows ;;
        Return (map (chart_row (xResolved data) (yResolved data)) kept)
    | None => Return []
    end
  else Return [].

(** Lines 298-299. *)
Definition yRange (data : VisualizationData) : value :=
  or_ (getOwn (data_summary data) "y_range")
      (VArr [VNum (Fin 0%Q); VNum (Fin 100%Q)]).
Definition yAvg (data : VisualizationData) : value :=
  or_ (getOwn (data_summary data) "y_average") (VNum (Fin 50%Q)).

(** Line 306, with [r] the draw of [Math.random()]. *)
Definition synthetic_y (data : VisualizationData) (r : Q) : value :=
  js_add (yAvg data)
    (VNum (num_mul
             (num_mul (num_sub (Fin r) (Fin (1 # 2)))
                      (js_sub (getOwn (yRange data) "1")
                              (getOwn (yRange data) "0")))
             (Fin (3 # 10)))).

(** Lines 302-308: the [forEach] loop; [i] counts the draws made. *)
Fixpoint synthesize (data : VisualizationData) (i : nat) (xSample : list value)
  : list ChartDataPoint :=
  match xSample with
  | [] => []
  | x :: rest =>
      point (xColumn data) x (yColumn data) (synthetic_y data (Math_random i))
      :: synthesize data (S i) rest
  end.

(** Lines 295-309: the rows rebuilt from the summary; only an array
    has [forEach]. *)
Definition syntheticRows (data : VisualizationData)
  : result (list ChartDataPoint) :=
  let sample := optget (data_summary data) "x_data_sample" in
  if truthy sample then
    match sample with
    | VArr xSample => Return (synthesize data 0 xSample)
    | _ => Throws
    end
  else Return [].

Definition nonempty {A} (l : option (list A)) : bool :=
  match l with
  | Some (_ :: _) => true
  | _ => false
  end.

(** Line 272. *)
Definition chartBranch (data : VisualizationData)
  (sqlResult : option (list value)) : bool :=
  is_str (vizType data) "chart"
  || (truthy (chart_type data) && nonempty sqlResult).

(** Lines 272-318: the chart data handed to [ChartVisualization], or
    [None] when control leaves the branch without returning. *)
Definition chartRows (data : VisualizationData)
  (sqlResult : option (list value)) : result (option (list ChartDataPoint)) :=
  if chartBranch data sqlResult then
    a <- authoritativeRows data sqlResult ;;
    match a with
    | _ :: _ => Return (Some a)
    | [] =>
        s <- syntheticRows data ;;
        match s with
        | _ :: _ => Return (Some s)
        | [] => Return None
        end
    end
  else Return None.

(** Lines 246-330. *)
Definition Visualization (data : option VisualizationData)
  (sqlResult : option (list value)) : result Plan :=
  match data with
  | None => Return PNull
  | Some data =>
      if is_str (vizType data) "image" || truthy (image data) then
        e <- ImageVisualization data ;;
        Return (PWrap e)
      else
        c <- chartRows data sqlResult ;;
        match c with
        | Some chartData =>
            e <- ChartVisualization data chartData ;;
            Return (PWrap (Some e))
        | None =>
            if is_str (vizType data) "text" || truthy (text data)
            then Return (PWrap (TextVisualization data))
            else Return PNull
        end
  end.

End Renderer.

(** ** The extractor *)

(** The regular expression of lines 368-370: the quoted word
    visualization; optional white space, a colon, optional white space;
    an opening brace; any characters other than braces; any number of
    groups made of an opening brace, characters other than braces, a
    closing brace and characters other than braces; a closing brace.
    Each starred class is followed by a character outside the class, so
    at a given start the expression matches in at most one way and a
    single left-to-right scan decides it. *)
Module Regex.

Definition dquote : ascii := ascii_of_nat 34.

Definition quoted (s : string) : string :=
  String dquote (s ++ String dquote EmptyString).

(** The literal text the pattern starts with, quotes included. *)
Definition key : string := quoted "visualization".

(** [\s] *)
Definition is_space (c : ascii) : bool :=
  let n := nat_of_ascii c in
  ((9 <=? n) && (n <=? 13)) || (n =? 32) || (n =? 160).

(** [lit] at the head of [s]: what follows it. *)
Fixpoint strip_prefix (lit s : string) : option string :=
  match lit, s with
  | EmptyString, _ => Some s
  | String a lit', String b s' =>
      if Ascii.eqb a b then strip_prefix lit' s' else None
  | String _ _, EmptyString => None
  end.

(** [\s*]: how many characters it takes, and what follows. *)
Fixpoint skip_spaces (s : string) : nat * string :=
  match s with
  | String c s' =>
      if is_space c
      then let (n, r) := skip_spaces s' in (S n, r)
      else (0, s)
  | EmptyString => (0, s)
  end.

Definition expect (c : ascii) (s : string) : option string :=
  match s with
  | String d s' => if Ascii.eqb c d then Some s' else None
  | EmptyString => None
  end.

(** What follows the opening brace: the number of characters up to
    and including the closing brace that ends the match.
    [inner] says the scan is inside a nested pair of braces, where a
    further opening brace cannot match. *)
Fixpoint scan (inner : bool) (s : string) : option nat :=
  match s with
  | EmptyString => None
  | String c s' =>
      if Ascii.eqb c "}" then
        if inner then option_map S (scan false s') else Some 1
      else if Ascii.eqb c "{" then
        if inner then None else option_map S (scan true s')
      else option_map S (scan inner s')
  end.

(** The length of the match that starts at the head of [s]. *)
Definition match_here (s : string) : option nat :=
  match strip_prefix key s with
  | None => None
  | Some r0 =>
      let (n1, r1) := skip_spaces r0 in
      match expect ":" r1 with
      | None => None
      | Some r2 =>
          let (n2, r3) := skip_spaces r2 in
          match expect "{" r3 with
          | None => None
          | Some r4 =>
              match scan false r4 with
              | None => None
              | Some n => Some (String.length key + n1 + 1 + n2 + 1 + n)
              end
          end
      end
  end.

(** [content.match(re)]: the text of the leftmost match. *)
Fixpoint find_match (s : string) : option string :=
  match match_here s with
  | Some n => Some (String.substring 0 n s)
  | None =>
      match s with
      | EmptyString => None
      | String _ s' => find_match s'
      end
  end.

End Regex.

(** The object [extractVisualizationData] returns. *)
Record Extraction : Type := {
  visualization : option VisualizationData;
  sqlResult : option (list value)
}.

Section Extractor.
Context {host : Host}.

(** Line 339. *)
Definition sqlResultOf (state : value) : value :=
  or_ (optget (optget (optget state "final_response") "sql") "result")
      (optget state "sql_result").

(** Lines 361 and 403. *)
Definition rowsOf (state : value) : option (list value) :=
  match sqlResultOf state with
  | VArr rows => Some rows
  | _ => None
  end.

(** Lines 342-345. *)
Definition stateVizOf (state : value) : value :=
  or_ (or_ (optget (optget state "final_response") "visualization")
           (optget state "visualization"))
      (optget state "guarded_visualization").

(** The object literal of lines 349-360, written again at lines
    375-386.  All its reads are reads of properties of [viz], so it
    throws exactly when [viz] is [undefined] or [null]. *)
Definition normalize (viz : value) : result VisualizationData :=
  if nullish viz then Throws
  else
    let s := getOwn viz "spec" in
    Return {|
      type := or_ (getOwn viz "type") (VStr "chart");
      chart_type := or_ (or_ (optget s "chart_type") (getOwn viz "chart_type"))
                        (VStr "bar");
      x_column := or_ (optget s "x_column") (getOwn viz "x_column");
      y_column := or_ (optget s "y_column") (getOwn viz "y_column");
      title := or_ (or_ (getOwn viz "title") (optget s "title")) (VStr "Chart");
      text := getOwn viz "text";
      spec := s;
      data_summary := getOwn viz "data_summary";
      image := getOwn viz "image";
      mimeType := getOwn viz "mimeType"
    |}.

(** Lines 398-402. *)
Definition defaultVisualization : VisualizationData := {|
  type := VStr "chart";
  chart_type := VStr "bar";
  x_column := VUndefined;
  y_column := VUndefined;
  title := VStr "Chart";
  text := VUndefined;
  spec := VUndefined;
  data_summary := VUndefined;
  image := VUndefined;
  mimeType := VUndefined
|}.

(** Lines 368-390: the body of the [try]. *)
Definition parseEmbedded (content : string)
  : result (option VisualizationData) :=
  match Regex.find_match content with
  | None => Return None
  | Some jsonMatch =>
      match JSON_parse ("{" ++ jsonMatch ++ "}") with
      | None => Throws
      | Some parsed =>
          v <- get parsed "visualization" ;;
          if truthy v
          then d <- normalize v ;; Return (Some d)
          else Return None
      end
  end.

(** Lines 366-394: the descriptor found in the content, if any. *)
Definition embeddedVisualization (content : value)
  : option VisualizationData :=
  match content with
  | VStr s => try_catch (parseEmbedded s)
  | _ => None
  end.

(** Lines 335-405. *)
Definition extractVisualizationData (content state : value)
  : result Extraction :=
  if truthy (stateVizOf state) then
    d <- normalize (stateVizOf state) ;;
    Return {| visualization := Some d; sqlResult := rowsOf state |}
  else
    match embeddedVisualization content with
    | Some d => Return {| visualization := Some d; sqlResult := None |}
    | None =>
        Return {| visualization := Some defaultVisualization;
                  sqlResult := rowsOf state |}
    end.

End Extractor.

(** ** Notions used to state the properties *)

(** A resolution order: the first candidate that is truthy, otherwise
    the fallback. *)
Fixpoint first_truthy (candidates : list value) (fallback : value) : value :=
  match candidates with
  | [] => fallback
  | c :: rest => if truthy c then c else first_truthy rest fallback
  end.

(** The chart types [renderChart] has a case for. *)
Definition recognized (t : value) : bool :=
  is_str t "bar" || is_str t "line" || is_str t "pie" || is_str t "scatter".

Section SpecWording.
Context {host : Host}.


End SpecWording.

(** ** The rest of the component *)

(** Lines 50-59. *)
Definition COLORS : list string :=
  ["#0088FE"; "#00C49F"; "#FFBB28"; "#FF8042";
   "#8884d8"; "#82ca9d"; "#ffc658"; "#ff7300"].

(** Line 138: the fill of the cell of the slice at [index]; [None]
    stands for [undefined]. *)
Definition cellFill (index : nat) : option string :=
  nth_error COLORS (index mod List.length COLORS).

(** Lines 135-140: one cell per slice. *)
Definition pieCells (pieData : list ChartDataPoint) : list (option string) :=
  map cellFill (seq 0 (List.length pieData)).

Section Views.
Context {host : Host}.

(** Line 279 on a row that is an object: both values are there. *)
Definition both_present (kx ky row : value) : bool :=
  negb (nullish (getOwn row (ToString kx)))
  && negb (nullish (getOwn row (ToString ky))).

End Views.

(** The descriptor the extractor returns, as the object it is. *)
Definition toObject (d : VisualizationData) : value :=
  VObj [("type", type d); ("chart_type", chart_type d);
        ("x_column", x_column d); ("y_column", y_column d);
        ("title", title d); ("spec", spec d);
        ("data_summary", data_summary d); ("image", image d);
        ("mimeType", mimeType d); ("text", text d)].

(** An image as the interface declares it: a string, or nothing. *)
Definition wt_image (v : value) : bool :=
  match v with
  | VStr _ => true
  | _ => negb (truthy v)
  end.

(** Rows none of which is [undefined] or [null]. *)
Definition wt_rows (rows : option (list value)) : bool :=
  match rows with
  | Some l => negb (existsb nullish l)
  | None => true
  end.

(** Braces that open at most one level, and close what they open:
    [inner] says a brace is open at the start. *)
Fixpoint shallow (inner : bool) (s : string) : bool :=
  match s with
  | EmptyString => negb inner
  | String c s' =>
      if Ascii.eqb c "}" then (if inner then shallow false s' else false)
      else if Ascii.eqb c "{" then (if inner then false else shallow true s')
      else shallow inner s'
  end.

Fixpoint all_spaces (s : string) : bool :=
  match s with
  | EmptyString => true
  | String c s' => Regex.is_space c && all_spaces s'
  end.

(** ** Data as a result set gives it *)

(** A scalar: anything but an array or an object. *)
Definition is_primitive (v : value) : bool :=
  match v with
  | VArr _ | VObj _ => false
  | _ => true
  end.




(** A value none of whose properties or elements is an array or an
    object, so that no cell read from it needs [toString]. *)
Definition scalar_cells (row : value) : bool :=
  match row with
  | VObj fields => forallb (fun kv => is_primitive (snd kv)) fields
  | VArr elems => forallb is_primitive elems
  | _ => true
  end.

Definition scalar_rows (rows : option (list value)) : bool :=
  match rows with
  | Some l => forallb scalar_cells l
  | None => true
  end.

(** A chart data point whose values are scalars. *)
Definition plain_point (p : ChartDataPoint) : bool :=
  forallb (fun kv => is_primitive (snd kv)) p.

(** A sample, if there is one, of scalars. *)
Definition scalar_sample (v : value) : bool :=
  match v with
  | VArr elems => forallb is_primitive elems
  | _ => true
  end.

(** ** Line 306 in double precision *)

(** The arithmetic of line 306 as the engine does it: every operation
    and every decimal literal is rounded to the nearest double, ties to
    even.  Doubles are the rationals [m * 2^e] with [m] below [2^53]
    and [e] at least [-1074]; overflow is not modelled. *)
Module Binary64.

(** The nearest integer, ties to even. *)
Definition rne (q : Q) : Z :=
  let f := Qfloor q in
  match Qcompare (q - inject_Z f) (1 # 2) with
  | Lt => f
  | Eq => if Z.even f then f else (f + 1)%Z
  | Gt => (f + 1)%Z
  end.

Definition pow2 (e : Z) : Q := Qpower 2 e.

(** The [e] with [2^e <= q < 2^(e+1)], for a positive [q]. *)
Definition exponent (q : Q) : Z :=
  let e0 := (Z.log2 (Qnum q) - Z.log2 (Zpos (Qden q)))%Z in
  if Qle_bool (pow2 e0) q then e0 else (e0 - 1)%Z.

(** The exponent of the format: not below that of the subnormals. *)
Definition emin (q : Q) : Z := Z.max (exponent q) (-1022).

(** The distance between the doubles around a positive [q]. *)
Definition ulp (q : Q) : Q := pow2 (emin q - 52).

Definition round_pos (q : Q) : Q := (inject_Z (rne (q / ulp q)) * ulp q)%Q.

Definition round (q : Q) : Q :=
  match Qcompare q 0 with
  | Eq => 0%Q
  | Gt => round_pos q
  | Lt => (- round_pos (- q))%Q
  end.

Definition add (a b : Q) : Q := round (a + b).
Definition sub (a b : Q) : Q := round (a - b).
Definition mul (a b : Q) : Q := round (a * b).

(** Line 306, with [r] the draw of [Math.random()]. *)
Definition synthetic_y (yAvg r lo hi : Q) : Q :=
  add yAvg (mul (mul (sub r (round (1 # 2))) (sub hi lo)) (round (3 # 10))).


End Binary64.

(** ** A host to run the component on

    One instance of [Host], used to evaluate the component on concrete
    inputs: decimal printing and reading of numbers, a JSON parser
    (without [\u] escapes) and a fixed sequence of draws.  The theorems
    below hold for every host. *)
Module Reference.

Definition digit_char (d : Z) : ascii := ascii_of_nat (48 + Z.to_nat d).

Definition string_of_Z (z : Z) : string :=
  DecimalString.NilZero.string_of_int (Z.to_int z).

Fixpoint frac_digits (fuel : nat) (num den : Z) : string :=
  match fuel with
  | 0 => EmptyString
  | S fuel' =>
      if (num =? 0)%Z then EmptyString
      else let d := (10 * num / den)%Z in
           String (digit_char d) (frac_digits fuel' (10 * num - d * den)%Z den)
  end.

Definition number_toString (n : number) : string :=
  match n with
  | NaN => "NaN"
  | Fin q =>
      let a := Z.abs (Qnum q) in
      let d := Zpos (Qden q) in
      let sign := if (Qnum q <? 0)%Z then "-" else EmptyString in
      let frac := if (a mod d =? 0)%Z then EmptyString
                  else "." ++ frac_digits 20 (a mod d)%Z d in
      sign ++ string_of_Z (a / d)%Z ++ frac
  end.

Definition json_space (c : ascii) : bool :=
  let n := nat_of_ascii c in
  (n =? 32) || (n =? 9) || (n =? 10) || (n =? 13).

Fixpoint skip_ws (s : string) : string :=
  match s with
  | String c s' => if json_space c then skip_ws s' else s
  | EmptyString => s
  end.

(** The decimal digits at the head of [s]: their value, how many there
    are, and what follows. *)
Fixpoint digits (acc : Z) (count : nat) (s : string) : Z * nat * string :=
  match s with
  | String c s' =>
      match digit_of c with
      | Some d => digits (10 * acc + Z.of_nat d)%Z (S count) s'
      | None => (acc, count, s)
      end
  | EmptyString => (acc, count, s)
  end.

Definition parse_exponent (s : string) : option (Z * string) :=
  match s with
  | String c r =>
      if Ascii.eqb c "e" || Ascii.eqb c "E" then
        let '(neg, r1) :=
          match r with
          | String sg r' =>
              if Ascii.eqb sg "-" then (true, r')
              else if Ascii.eqb sg "+" then (false, r')
              else (false, r)
          | EmptyString => (false, r)
          end in
        let '(e, k, r2) := digits 0 0 r1 in
        if k =? 0 then None else Some (if neg then (- e)%Z else e, r2)
      else Some (0%Z, s)
  | EmptyString => Some (0%Z, s)
  end.

(** A JSON number at the head of [s]. *)
Definition parse_number (s : string) : option (Q * string) :=
  let '(neg, s1) :=
    match s with
    | String c r => if Ascii.eqb c "-" then (true, r) else (false, s)
    | EmptyString => (false, s)
    end in
  let '(ip, k, s2) :=
    match s1 with
    | String c r => if Ascii.eqb c "0" then (0%Z, 1, r) else digits 0 0 s1
    | EmptyString => (0%Z, 0, s1)
    end in
  if k =? 0 then None
  else
    let frac :=
      match s2 with
      | String c r =>
          if Ascii.eqb c "." then
            let '(f, j, r') := digits 0 0 r in
            if j =? 0 then None
            else Some ((inject_Z f * Qpower 10 (- Z.of_nat j))%Q, r')
          else Some (0%Q, s2)
      | EmptyString => Some (0%Q, s2)
      end in
    match frac with
    | None => None
    | Some (fq, s3) =>
        match parse_exponent s3 with
        | None => None
        | Some (e, s4) =>
            let m := ((inject_Z ip + fq) * Qpower 10 e)%Q in
            Some (Qred (if neg then (- m)%Q else m), s4)
        end
    end.

Definition stringToNumber (s : string) : number :=
  match skip_ws s with
  | EmptyString => Fin 0%Q
  | t =>
      let t' := match t with
                | String c r => if Ascii.eqb c "+" then r else t
                | EmptyString => t
                end in
      match parse_number t' with
      | Some (q, rest) =>
          match skip_ws rest with
          | EmptyString => Fin q
          | String _ _ => NaN
          end
      | None => NaN
      end
  end.

Definition escaped (c : ascii) : option ascii :=
  if Ascii.eqb c "n" then Some (ascii_of_nat 10)
  else if Ascii.eqb c "t" then Some (ascii_of_nat 9)
  else if Ascii.eqb c "r" then Some (ascii_of_nat 13)
  else if Ascii.eqb c "b" then Some (ascii_of_nat 8)
  else if Ascii.eqb c "f" then Some (ascii_of_nat 12)
  else if Ascii.eqb c "/" || Ascii.eqb c "\" || Ascii.eqb c Regex.dquote
       then Some c
  else None.

(** A JSON string after its opening quote. *)
Fixpoint parse_string (s : string) : option (string * string) :=
  match s with
  | EmptyString => None
  | String c r =>
      if Ascii.eqb c Regex.dquote then Some (EmptyString, r)
      else if Ascii.eqb c "\" then
        match r with
        | String e r' =>
            match escaped e, parse_string r' with
            | Some c', Some (t, rest) => Some (String c' t, rest)
            | _, _ => None
            end
        | EmptyString => None
        end
      else if nat_of_ascii c <? 32 then None
      else match parse_string r with
           | Some (t, rest) => Some (String c t, rest)
           | None => None
           end
  end.

(** A later member replaces an earlier one of the same name. *)
Fixpoint set_field (k : string) (v : value) (fields : list (string * value))
  : list (string * value) :=
  match fields with
  | [] => [(k, v)]
  | (k', v') :: rest =>
      if String.eqb k' k then (k, v) :: rest
      else (k', v') :: set_field k v rest
  end.

Fixpoint parse_value (fuel : nat) (s : string) : option (value * string) :=
  match fuel with
  | 0 => None
  | S fuel' =>
      match skip_ws s with
      | EmptyString => None
      | String c r as t =>
          if Ascii.eqb c "{" then
            match skip_ws r with
            | String d r' =>
                if Ascii.eqb d "}" then Some (VObj [], r')
                else parse_members fuel' r []
            | EmptyString => None
            end
          else if Ascii.eqb c "[" then
            match skip_ws r with
            | String d r' =>
                if Ascii.eqb d "]" then Some (VArr [], r')
                else parse_elements fuel' r []
            | EmptyString => None
            end
          else if Ascii.eqb c Regex.dquote then
            match parse_string r with
            | Some (str, rest) => Some (VStr str, rest)
            | None => None
            end
          else match Regex.strip_prefix "true" t with
          | Some rest => Some (VBool true, rest)
          | None =>
          match Regex.strip_prefix "false" t with
          | Some rest => Some (VBool false, rest)
          | None =>
          match Regex.strip_prefix "null" t with
          | Some rest => Some (VNull, rest)
          | None =>
          match parse_number t with
          | Some (q, rest) => Some (VNum (Fin q), rest)
          | None => None
          end end end end
      end
  end
with parse_members (fuel : nat) (s : string) (acc : list (string * value))
  : option (value * string) :=
  match fuel with
  | 0 => None
  | S fuel' =>
      match skip_ws s with
      | String q r =>
          if Ascii.eqb q Regex.dquote then
            match parse_string r with
            | Some (k, r1) =>
                match Regex.expect ":" (skip_ws r1) with
                | Some r2 =>
                    match parse_value fuel' r2 with
                    | Some (v, r3) =>
                        match skip_ws r3 with
                        | String d r4 =>
                            if Ascii.eqb d "," then
                              parse_members fuel' r4 (set_field k v acc)
                            else if Ascii.eqb d "}" then
                              Some (VObj (set_field k v acc), r4)
                            else None
                        | EmptyString => None
                        end
                    | None => None
                    end
                | None => None
                end
            | None => None
            end
          else None
      | EmptyString => None
      end
  end
with parse_elements (fuel : nat) (s : string) (acc : list value)
  : option (value * string) :=
  match fuel with
  | 0 => None
  | S fuel' =>
      match parse_value fuel' s with
      | Some (v, r1) =>
          match skip_ws r1 with
          | String d r2 =>
              if Ascii.eqb d "," then parse_elements fuel' r2 (acc ++ [v])
              else if Ascii.eqb d "]" then Some (VArr (acc ++ [v]), r2)
              else None
          | EmptyString => None
          end
      | None => None
      end
  end.

Definition json_parse (s : string) : option value :=
  match parse_value (2 * String.length s + 2) s with
  | Some (v, rest) =>
      match skip_ws rest with
      | EmptyString => Some v
      | String _ _ => None
      end
  | None => None
  end.

(** The draws 0, 0.1, ..., 0.9, 0, 0.1, ... *)
Definition random (i : nat) : Q := Z.of_nat (i mod 10) # 10.

Definition random_range (i : nat) : (0 <= random i /\ random i < 1)%Q.
Proof.
  assert (H : i mod 10 < 10) by (apply Nat.mod_upper_bound; discriminate).
  unfold random, Qle, Qlt; cbn [Qnum Qden]. lia.
Qed.

#[export] Instance host : Host := {|
  Number_toString := number_toString;
  StringToNumber := stringToNumber;
  JSON_parse := json_parse;
  Math_random := random;
  Math_random_range := random_range
|}.

End Reference.

(** ** Inputs used in examples *)

Module Examples.

Definition num (z : Z) : value := VNum (of_Z z).

Definition absent : VisualizationData := {|
  type := VUndefined;
  chart_type := VUndefined;
  x_column := VUndefined;
  y_column := VUndefined;
  title := VUndefined;
  text := VUndefined;
  spec := VUndefined;
  data_summary := VUndefined;
  image := VUndefined;
  mimeType := VUndefined
|}.

(** The visualization and rows of the round-trip example. *)
Definition revenue_viz : value :=
  VObj [("type", VStr "chart"); ("chart_type", VStr "line");
        ("x_column", VStr "month"); ("y_column", VStr "sales");
        ("title", VStr "Revenue")].

Definition revenue_state : value := VObj [("visualization", revenue_viz)].

Definition revenue_rows : list value :=
  [VObj [("month", VStr "Jan"); ("sales", num 10)];
   VObj [("month", VStr "Feb"); ("sales", num 20)]].

Definition revenue_points : list ChartDataPoint :=
  [[("month", VStr "Jan"); ("sales", num 10)];
   [("month", VStr "Feb"); ("sales", num 20)]].

(** A visualization whose top-level fields and [spec] disagree. *)
Definition conflicting_viz : value :=
  VObj [("type", VStr "chart"); ("chart_type", VStr "line");
        ("x_column", VStr "month"); ("y_column", VStr "sales");
        ("title", VStr "Revenue");
        ("spec", VObj [("chart_type", VStr "pie"); ("x_column", VStr "region");
                       ("y_column", VStr "profit"); ("title", VStr "Old")])].

Definition conflicting_state : value :=
  VObj [("visualization", conflicting_viz)].

(** The pie chart of the aggregation example and its rows. *)
Definition pie_data : VisualizationData := {|
  type := VStr "chart";
  chart_type := VStr "pie";
  x_column := VStr "cat";
  y_column := VStr "v";
  title := VUndefined;
  text := VUndefined;
  spec := VUndefined;
  data_summary := VUndefined;
  image := VUndefined;
  mimeType := VUndefined
|}.

Definition slice (name : string) (v : Z) : ChartDataPoint :=
  [("name", VStr name); ("value", num v)].

Definition duplicate_rows : list value :=
  [VObj [("cat", VStr "A"); ("v", num 5)];
   VObj [("cat", VStr "A"); ("v", num 5)]].


(** A chart descriptor that only carries a summary. *)
Definition summary_data (summary : list (string * value))
  : VisualizationData := {|
  type := VStr "chart";
  chart_type := VUndefined;
  x_column := VUndefined;
  y_column := VUndefined;
  title := VUndefined;
  text := VUndefined;
  spec := VUndefined;
  data_summary := VObj summary;
  image := VUndefined;
  mimeType := VUndefined
|}.

(** The summary of the synthetic-fallback example. *)
Definition sample_summary : list (string * value) :=
  [("x_data_sample", VArr [num 1; num 2; num 3]);
   ("y_range", VArr [num 0; num 10]);
   ("y_average", num 5)].

(** A summary whose average is 0. *)
Definition zero_average_summary : list (string * value) :=
  [("x_data_sample", VArr [num 1]);
   ("y_range", VArr [num (-10); num 10]);
   ("y_average", num 0)].



(** A descriptor with a text and nothing else. *)
Definition text_only_data : VisualizationData := {|
  type := VUndefined;
  chart_type := VUndefined;
  x_column := VUndefined;
  y_column := VUndefined;
  title := VUndefined;
  text := VStr "Jan ## Feb ####";
  spec := VUndefined;
  data_summary := VUndefined;
  image := VUndefined;
  mimeType := VUndefined
|}.

(** A chart descriptor without y column, with or without a text. *)
Definition no_y_data (t : value) : VisualizationData := {|
  type := VStr "chart";
  chart_type := VStr "bar";
  x_column := VStr "month";
  y_column := VUndefined;
  title := VUndefined;
  text := t;
  spec := VUndefined;
  data_summary := VUndefined;
  image := VUndefined;
  mimeType := VUndefined
|}.

(** A chart descriptor of a type the renderer has no case for. *)
Definition radar_data : VisualizationData := {|
  type := VStr "chart";
  chart_type := VStr "radar";
  x_column := VStr "month";
  y_column := VStr "sales";
  title := VUndefined;
  text := VUndefined;
  spec := VUndefined;
  data_summary := VUndefined;
  image := VUndefined;
  mimeType := VUndefined
|}.

(** A content whose fragment is not JSON, and a state with rows only. *)
Definition malformed_content : string :=
  "Result: " ++ Regex.key ++ ": {oops} end".

Definition rows_only_state : value :=
  VObj [("sql_result", VArr revenue_rows)].

(** A content with a well-formed fragment, one level of nesting. *)
Definition embedded_content : string :=
  "Here is the chart: {" ++ Regex.key ++ ": {"
  ++ Regex.quoted "type" ++ ": " ++ Regex.quoted "chart" ++ ", "
  ++ Regex.quoted "title" ++ ": " ++ Regex.quoted "Sales" ++ ", "
  ++ Regex.quoted "spec" ++ ": {"
  ++ Regex.quoted "chart_type" ++ ": " ++ Regex.quoted "line" ++ "}}} done".

(** A content whose fragment nests braces twice. *)
Definition deep_content : string :=
  Regex.key ++ ": {" ++ Regex.quoted "spec" ++ ": {"
  ++ Regex.quoted "opts" ++ ": {}}}".

(** A descriptor of type image that has a text but no image. *)
Definition image_type_data : VisualizationData := {|
  type := VStr "image";
  chart_type := VStr "bar";
  x_column := VStr "month";
  y_column := VStr "sales";
  title := VUndefined;
  text := VStr "Jan ##";
  spec := VUndefined;
  data_summary := VUndefined;
  image := VUndefined;
  mimeType := VUndefined
|}.

(** Rows of which the second has no sales, the third null sales, and
    the fourth sales that do not read as a number. *)
Definition ragged_rows : list value :=
  [VObj [("month", VStr "Jan"); ("sales", num 10)];
   VObj [("month", VStr "Feb")];
   VObj [("month", VStr "Mar"); ("sales", VNull)];
   VObj [("month", VStr "Apr"); ("sales", VStr "n/a")]].

Definition ragged_points : list ChartDataPoint :=
  [[("month", VStr "Jan"); ("sales", num 10)];
   [("month", VStr "Apr"); ("sales", VNum (Fin 0%Q))]].

(** A summary whose range holds no numbers, and one whose sample is a
    string. *)
Definition null_range_summary : list (string * value) :=
  [("y_range", VArr [VNull; VNull])].

Definition string_sample_summary : list (string * value) :=
  [("x_data_sample", VStr "abc")].

(** A state whose first result path holds a message and whose second
    holds rows. *)
Definition shadowed_rows_state : value :=
  VObj [("final_response",
         VObj [("sql", VObj [("result", VStr "syntax error")])]);
        ("sql_result", VArr revenue_rows)].

End Examples.
Import Examples.

(** ** Properties *)

Section Properties.
Context {host : Host}.

Lemma truthy_not_nullish (v : value) : truthy v = true -> nullish v = false.
Proof. destruct v; simpl; congruence. Qed.

Lemma str_truthy_nonempty (s : string) :
  s <> EmptyString -> str_truthy s = true.
Proof. destruct s; simpl; congruence. Qed.

Lemma or_truthy (a b : value) : truthy a = true -> or_ a b = a.
Proof. unfold or_; intros ->; reflexivity. Qed.

Lemma or_falsy (a b : value) : truthy a = false -> or_ a b = b.
Proof. unfold or_; intros ->; reflexivity. Qed.

Lemma vizType_absent (data : VisualizationData) :
  truthy (type data) = false -> vizType data = VStr "text".
Proof. intros H; unfold vizType; now rewrite or_falsy. Qed.

Lemma vizType_str (data : VisualizationData) (k : string) :
  type data = VStr k -> k <> EmptyString -> vizType data = VStr k.
Proof.
  intros E Hk; unfold vizType; rewrite E.
  apply or_truthy; simpl; now apply str_truthy_nonempty.
Qed.

(** The key of the y value always reads back the y value of a point. *)
Lemma item_get_point (kx x ky y : value) :
  item_get (point kx x ky y) ky = y.
Proof.
  unfold item_get, point.
  destruct (String.eqb (ToString kx) (ToString ky)) eqn:E; simpl.
  - now rewrite String.eqb_refl.
  - rewrite E, String.eqb_refl; reflexivity.
Qed.

(** The chart branch hands over chart data only when there is some. *)
Lemma chartRows_nonempty (data : VisualizationData)
  (rows : option (list value)) (chartData : list ChartDataPoint) :
  chartRows data rows = Return (Some chartData) -> chartData <> [].
Proof.
  unfold chartRows.
  destruct (chartBranch data rows); [| discriminate].
  destruct (authoritativeRows data rows) as [[| p a] |]; simpl;
    try discriminate.
  - destruct (syntheticRows data) as [[| q s] |]; simpl; try discriminate.
    intros [= <-]; discriminate.
  - intros [= <-]; discriminate.
Qed.


(** C10. A descriptor without [type] is read as a text descriptor: with
    no image and outside the chart branch (no [chart_type], or no rows)
    the dispatcher wraps the text renderer, which shows the text card
    exactly when [text] is non-empty and nothing otherwise. *)
Theorem absent_kind_defaults_to_text
  (data : VisualizationData) (rows : option (list value)) :
  type data = VUndefined ->
  truthy (image data) = false ->
  truthy (chart_type data) && nonempty rows = false ->
  vizType data = VStr "text"
  /\ Visualization (Some data) rows = Return (PWrap (TextVisualization data))
  /\ (truthy (text data) = true ->
      TextVisualization data = Some (TextCard (title data) (text data)))
  /\ (truthy (text data) = false -> TextVisualization data = None).
Proof.
  intros Hty Him Hch.
  assert (Hv : vizType data = VStr "text")
    by (apply vizType_absent; now rewrite Hty).
  split; [exact Hv |]. split; [| split].
  - unfold Visualization, chartRows, chartBranch.
    rewrite Hv, Him, Hch; reflexivity.
  - intros Ht; unfold TextVisualization; now rewrite Ht.
  - intros Ht; unfold TextVisualization; now rewrite Ht.
Qed.

(** C3 (as the code has it). For a descriptor of type [chart] with no
    image, when neither the SQL rows nor the summary give chart data,
    no chart is drawn and control falls through to the text test: the
    text card is shown when [text] is non-empty, and the result is
    [null] otherwise.  In particular, with a column unresolved, no
    summary, no image and no text, the result is [null] whatever the
    rows. *)
Theorem chart_without_rows_falls_through_to_text
  (data : VisualizationData) (rows : option (list value)) :
  type data = VStr "chart" ->
  truthy (image data) = false ->
  (authoritativeRows data rows = Return [] /\ syntheticRows data = Return [] ->
   chartRows data rows = Return None
   /\ Visualization (Some data) rows
      = Return (if truthy (text data)
                then PWrap (Some (TextCard (title data) (text data)))
                else PNull))
  /\ (truthy (xResolved data) && truthy (yResolved data) = false ->
      data_summary data = VUndefined ->
      truthy (text data) = false ->
      Visualization (Some data) rows = Return PNull).
Proof.
  intros Hty Him.
  assert (Hv : vizType data = VStr "chart")
    by (apply vizType_str; [exact Hty | discriminate]).
  assert (Hgen : authoritativeRows data rows = Return [] ->
                 syntheticRows data = Return [] ->
                 chartRows data rows = Return None
                 /\ Visualization (Some data) rows
                    = Return (if truthy (text data)
                              then PWrap (Some (TextCard (title data) (text data)))
                              else PNull)).
  { intros Ha Hs.
    assert (Hc : chartRows data rows = Return None).
    { unfold chartRows, chartBranch. rewrite Hv, Ha; simpl. now rewrite Hs. }
    split; [exact Hc |].
    unfold Visualization. rewrite Hv, Him, Hc; simpl.
    unfold TextVisualization. now destruct (truthy (text data)). }
  split.
  - intros [Ha Hs]; now apply Hgen.
  - intros Hcol Hsum Htx.
    destruct Hgen as [_ Hviz].
    + unfold authoritativeRows; now rewrite Hcol.
    + unfold syntheticRows; now rewrite Hsum.
    + now rewrite Htx in Hviz.
Qed.

Lemma getOwn_pair (a b : value) :
  getOwn (VArr [a; b]) "0" = a /\ getOwn (VArr [a; b]) "1" = b.
Proof. split; reflexivity. Qed.

Lemma chartFooter_well_typed (data : VisualizationData)
  (chartData : list ChartDataPoint) :
  wt_data_summary (data_summary data) = true ->
  exists f, chartFooter data chartData = Return f.
Proof.
  unfold chartFooter, wt_data_summary.
  destruct (data_summary data) as [| | b | n | s | l | fields] eqn:E;
    try discriminate; intros H.
  - exists None; reflexivity.
  - cbn [truthy].
    apply andb_prop in H as [H _]. apply andb_prop in H as [H _].
    apply andb_prop in H as [_ H].
    destruct (getOwn (VObj fields) "y_range")
      as [| | b | n | s | [| [| | | lo | | |] [| [| | | hi | | |] [|]]] | o];
      try discriminate H; cbn [truthy bind]; eauto.
    destruct (getOwn_pair (VNum lo) (VNum hi)) as [-> ->]; cbn; eauto.
Qed.

(** C8. For a descriptor of type [chart] that is not an image, whose
    chart type resolves to something other than bar, line, pie or
    scatter, and for which the chart branch found chart data, the
    dispatcher returns the chart card with the unsupported-type
    placeholder in it: it neither throws nor returns nothing.  The
    summary lines under the chart are computed from [data_summary],
    which is taken to have the shape the interface declares. *)
Theorem unrecognized_chart_type_renders_placeholder
  (data : VisualizationData) (rows : option (list value))
  (chartData : list ChartDataPoint) :
  type data = VStr "chart" ->
  truthy (image data) = false ->
  recognized (chartType data) = false ->
  chartRows data rows = Return (Some chartData) ->
  wt_data_summary (data_summary data) = true ->
  exists f,
    Visualization (Some data) rows
      = Return (PWrap (Some (ChartCard (chartTitle data)
                               (Unsupported (chartType data)) f)))
    /\ visible (PWrap (Some (ChartCard (chartTitle data)
                               (Unsupported (chartType data)) f))) <> None.
Proof.
  intros Hty Him Hrec Hrows Hwt.
  assert (Hv : vizType data = VStr "chart")
    by (apply vizType_str; [exact Hty | discriminate]).
  destruct (chartFooter_well_typed data chartData Hwt) as [f Hf].
  exists f. split; [| discriminate].
  unfold Visualization. rewrite Hv, Him, Hrows; simpl.
  pose proof (chartRows_nonempty _ _ _ Hrows) as Hne.
  unfold ChartVisualization.
  destruct chartData as [| p chartData]; [congruence |].
  rewrite Hf; simpl. unfold renderChart.
  unfold recognized in Hrec.
  apply orb_false_elim in Hrec as [Hrec Hsc].
  apply orb_false_elim in Hrec as [Hrec Hpie].
  apply orb_false_elim in Hrec as [Hbar Hline].
  now rewrite Hbar, Hline, Hpie, Hsc.
Qed.

Lemma normalize_truthy (viz : value) :
  truthy viz = true -> exists d, normalize viz = Return d.
Proof.
  intros H. unfold normalize. rewrite (truthy_not_nullish _ H). eauto.
Qed.

(** A parse error in the fragment found in the content is caught. *)
Lemma parse_failure_is_swallowed (s jsonMatch : string) :
  Regex.find_match s = Some jsonMatch ->
  JSON_parse ("{" ++ jsonMatch ++ "}") = None ->
  embeddedVisualization (VStr s) = None.
Proof.
  intros Hm Hp. unfold embeddedVisualization, parseEmbedded.
  now rewrite Hm, Hp.
Qed.

(** C5 (as the code has it). Extraction never throws and never
    returns a [null] descriptor.  When the state holds no visualization
    and the content gives none (it is not a string, holds no fragment,
    the fragment does not parse, or what it parses to has no
    visualization), the result is the default descriptor of type
    [chart], chart type [bar] and title [Chart], with rows decided
    like this: when [final_response.sql.result] is truthy, the rows
    are its elements if it is an array and [undefined] if it is not,
    whatever [sql_result] holds; only when it is falsy are the rows
    the elements of [sql_result] if that is an array, and [undefined]
    otherwise. *)
Theorem extraction_always_yields_a_descriptor (content state : value) :
  let first := optget (optget (optget state "final_response") "sql") "result" in
  let second := optget state "sql_result" in
  (exists d rows,
     extractVisualizationData content state
       = Return {| visualization := Some d; sqlResult := rows |})
  /\ (truthy (stateVizOf state) = false ->
      embeddedVisualization content = None ->
      extractVisualizationData content state
        = Return {| visualization := Some defaultVisualization;
                    sqlResult := rowsOf state |})
  /\ (forall s jsonMatch,
        content = VStr s ->
        Regex.find_match s = Some jsonMatch ->
        JSON_parse ("{" ++ jsonMatch ++ "}") = None ->
        embeddedVisualization content = None)
  /\ (truthy first = true ->
      (forall l, first = VArr l -> rowsOf state = Some l)
      /\ (isArray first = false -> rowsOf state = None))
  /\ (truthy first = false ->
      (forall l, second = VArr l -> rowsOf state = Some l)
      /\ (isArray second = false -> rowsOf state = None))
  /\ type defaultVisualization = VStr "chart"
  /\ chart_type defaultVisualization = VStr "bar"
  /\ title defaultVisualization = VStr "Chart".
Proof.
  cbn zeta.
  split; [| split; [| split; [| split; [| split]]]].
  - unfold extractVisualizationData.
    destruct (truthy (stateVizOf state)) eqn:Hs.
    + destruct (normalize_truthy _ Hs) as [d Hd]. rewrite Hd; simpl. eauto.
    + destruct (embeddedVisualization content) as [d |]; eauto.
  - intros Hs He. unfold extractVisualizationData. now rewrite Hs, He.
  - intros s jsonMatch -> Hm Hp. now apply parse_failure_is_swallowed with jsonMatch.
  - intros H. unfold rowsOf, sqlResultOf. rewrite (or_truthy _ _ H). split.
    + now intros l ->.
    + now destruct (optget (optget (optget state "final_response") "sql")
                      "result").
  - intros H. unfold rowsOf, sqlResultOf. rewrite (or_falsy _ _ H). split.
    + now intros l ->.
    + now destruct (optget state "sql_result").
  - repeat split.
Qed.

Lemma or_first_truthy (a b : value) : or_ a b = first_truthy [a] b.
Proof. reflexivity. Qed.

Lemma or_or_first_truthy (a b c : value) :
  or_ (or_ a b) c = first_truthy [a; b] c.
Proof.
  unfold or_; simpl.
  destruct (truthy a) eqn:Ha; [now rewrite Ha |].
  reflexivity.
Qed.

(** C1 (as the code has it). The chart renderer resolves each of the
    chart type, the two columns and the title in the order top-level
    field, [spec] field, default.  The normalization of the extractor
    resolves the title in that order, but the chart type and the two
    columns in the order [spec] field, top-level field (then [bar] for
    the chart type, nothing for the columns).  So when a top-level
    value and a [spec] value are both present, the descriptor and the
    chart drawn from it carry the top-level title and the [spec] chart
    type and columns. *)
Theorem resolution_order_of_fields (viz : value) (d : VisualizationData) :
  normalize viz = Return d ->
  let s := getOwn viz "spec" in
  (title d = first_truthy [getOwn viz "title"; optget s "title"] (VStr "Chart")
   /\ chart_type d
      = first_truthy [optget s "chart_type"; getOwn viz "chart_type"] (VStr "bar")
   /\ x_column d = first_truthy [optget s "x_column"] (getOwn viz "x_column")
   /\ y_column d = first_truthy [optget s "y_column"] (getOwn viz "y_column")
   /\ spec d = s)
  /\ (forall data : VisualizationData,
        chartType data
        = first_truthy [chart_type data; optget (spec data) "chart_type"] (VStr "bar")
        /\ xColumn data
           = first_truthy [x_column data; optget (spec data) "x_column"] (VStr "x")
        /\ yColumn data
           = first_truthy [y_column data; optget (spec data) "y_column"] (VStr "y")
        /\ chartTitle data
           = first_truthy [title data; optget (spec data) "title"] (VStr "Chart"))
  /\ (truthy (getOwn viz "title") = true ->
      title d = getOwn viz "title" /\ chartTitle d = getOwn viz "title")
  /\ (truthy (optget s "chart_type") = true ->
      chart_type d = optget s "chart_type" /\ chartType d = optget s "chart_type")
  /\ (truthy (optget s "x_column") = true ->
      x_column d = optget s "x_column" /\ xColumn d = optget s "x_column")
  /\ (truthy (optget s "y_column") = true ->
      y_column d = optget s "y_column" /\ yColumn d = optget s "y_column").
Proof.
  unfold normalize. destruct (nullish viz); [discriminate |].
  intros [= <-]; cbn zeta.
  split; [| split; [| split; [| split; [| split]]]].
  - cbn [title chart_type x_column y_column spec].
    rewrite !or_or_first_truthy. repeat split.
  - intros data. unfold chartType, xColumn, yColumn, chartTitle.
    rewrite !or_or_first_truthy. repeat split.
  - intros H. unfold chartTitle; cbn [title spec].
    repeat rewrite (or_truthy _ _ H). split; reflexivity.
  - intros H. unfold chartType; cbn [chart_type spec].
    repeat rewrite (or_truthy _ _ H). split; reflexivity.
  - intros H. unfold xColumn; cbn [x_column spec].
    repeat rewrite (or_truthy _ _ H). split; reflexivity.
  - intros H. unfold yColumn; cbn [y_column spec].
    repeat rewrite (or_truthy _ _ H). split; reflexivity.
Qed.

(** The descriptor of the state path is the normalization of the
    visualization found in the state. *)
Lemma extract_from_state (content state : value) :
  truthy (stateVizOf state) = true ->
  exists d, normalize (stateVizOf state) = Return d
            /\ extractVisualizationData content state
               = Return {| visualization := Some d; sqlResult := rowsOf state |}.
Proof.
  intros H. destruct (normalize_truthy _ H) as [d Hd].
  exists d. split; [exact Hd |].
  unfold extractVisualizationData. now rewrite H, Hd.
Qed.

(** C4. Extracting from a state whose [visualization] is the line
    chart of sales by month titled Revenue, and rendering the
    descriptor obtained against the rows of January (10) and February
    (20), gives the chart card with the line chart over exactly two
    points, whose y values are 10 and 20. *)
Theorem revenue_round_trip (content : value) :
  exists d,
    extractVisualizationData content revenue_state
      = Return {| visualization := Some d; sqlResult := None |}
    /\ Visualization (Some d) (Some revenue_rows)
       = Return (PWrap (Some (ChartCard (VStr "Revenue")
                                (LineChart revenue_points
                                   (VStr "month") (VStr "sales"))
                                None)))
    /\ List.length revenue_points = 2
    /\ map (fun p => item_get p (VStr "sales")) revenue_points
       = [num 10; num 20].
Proof.
  eexists. split; [reflexivity |]. repeat split.
Qed.




Lemma synthesize_length (data : VisualizationData) (i : nat)
  (xSample : list value) :
  List.length (synthesize data i xSample) = List.length xSample.
Proof.
  revert i; induction xSample as [| x rest IH]; intros i; simpl;
    [reflexivity | now rewrite IH].
Qed.

Lemma synthesize_nth (data : VisualizationData) (xSample : list value) :
  forall i k x,
    nth_error xSample k = Some x ->
    nth_error (synthesize data i xSample) k
    = Some (point (xColumn data) x (yColumn data)
              (synthetic_y data (Math_random (i + k)))).
Proof.
  induction xSample as [| x0 rest IH]; intros i k x Hk.
  - destruct k; discriminate.
  - destruct k as [| k]; simpl in *.
    + injection Hk as ->. now rewrite Nat.add_0_r.
    + rewrite (IH (S i) k x Hk). now rewrite Nat.add_succ_r.
Qed.

(** Line 306 when the range is a pair of finite numbers and the
    average is a finite number. *)
Lemma synthetic_y_typed (data : VisualizationData) (r lo hi avg : Q) :
  yRange data = VArr [VNum (Fin lo); VNum (Fin hi)] ->
  yAvg data = VNum (Fin avg) ->
  synthetic_y data r
  = VNum (Fin (avg + (r - (1 # 2)) * (hi - lo) * (3 # 10))%Q).
Proof.
  intros Hr Ha. unfold synthetic_y. rewrite Hr, Ha.
  destruct (getOwn_pair (VNum (Fin lo)) (VNum (Fin hi))) as [-> ->].
  reflexivity.
Qed.

Lemma noise_range (i : nat) :
  (- (1 # 2) <= Math_random i - (1 # 2) /\ Math_random i - (1 # 2) < 1 # 2)%Q.
Proof. destruct (Math_random_range i). split; lra. Qed.

Lemma syntheticRows_array (data : VisualizationData) (xSample : list value) :
  optget (data_summary data) "x_data_sample" = VArr xSample ->
  syntheticRows data = Return (synthesize data 0 xSample).
Proof. intros H. unfold syntheticRows. now rewrite H. Qed.

Lemma chartRows_synthetic (data : VisualizationData)
  (rows : option (list value)) (xSample : list value) :
  type data = VStr "chart" ->
  authoritativeRows data rows = Return [] ->
  optget (data_summary data) "x_data_sample" = VArr xSample ->
  xSample <> [] ->
  chartRows data rows = Return (Some (synthesize data 0 xSample)).
Proof.
  intros Hty Ha Hs Hne.
  unfold chartRows, chartBranch.
  rewrite (vizType_str data "chart" Hty) by discriminate.
  rewrite Ha; simpl. rewrite (syntheticRows_array _ _ Hs); simpl.
  destruct xSample; [congruence | reflexivity].
Qed.

(** The average the fallback uses: the one of the summary unless it
    is 0, which [||] replaces by 50 like an absent one. *)
Lemma yAvg_typed (data : VisualizationData) (avg : Q) :
  getOwn (data_summary data) "y_average" = VNum (Fin avg) ->
  yAvg data = VNum (Fin (if Qeq_bool avg 0 then 50 else avg)%Q).
Proof.
  intros H. unfold yAvg, or_. rewrite H; simpl.
  now destruct (Qeq_bool avg 0).
Qed.

(** The rows of the fallback. For a descriptor of type [chart] with no
    rows from the SQL result and a summary with a sample of n x values,
    a range [lo, hi] and an average, the fallback builds exactly n
    rows, one per sample value and in order, whose y value is
    [A + noise * (hi - lo) * 0.3] with noise in [-0.5, 0.5), where [A]
    is the average of the summary when that is not 0, and 50 when it
    is 0.  When [lo <= hi] every y value lies within
    [0.15 * (hi - lo)] of [A]. *)
Lemma synthetic_rows_follow_the_summary
  (data : VisualizationData) (rows : option (list value))
  (xSample : list value) (lo hi avg : Q) :
  type data = VStr "chart" ->
  authoritativeRows data rows = Return [] ->
  optget (data_summary data) "x_data_sample" = VArr xSample ->
  getOwn (data_summary data) "y_range" = VArr [VNum (Fin lo); VNum (Fin hi)] ->
  getOwn (data_summary data) "y_average" = VNum (Fin avg) ->
  let A := (if Qeq_bool avg 0 then 50 else avg)%Q in
  syntheticRows data = Return (synthesize data 0 xSample)
  /\ (xSample <> [] ->
      chartRows data rows = Return (Some (synthesize data 0 xSample)))
  /\ List.length (synthesize data 0 xSample) = List.length xSample
  /\ (forall k x,
        nth_error xSample k = Some x ->
        exists noise : Q,
          (- (1 # 2) <= noise /\ noise < 1 # 2)%Q
          /\ nth_error (synthesize data 0 xSample) k
             = Some (point (xColumn data) x (yColumn data)
                       (VNum (Fin (A + noise * (hi - lo) * (3 # 10))%Q)))
          /\ ((lo <= hi)%Q ->
              (A - (3 # 20) * (hi - lo) <= A + noise * (hi - lo) * (3 # 10)
               /\ A + noise * (hi - lo) * (3 # 10) <= A + (3 # 20) * (hi - lo))%Q)).
Proof.
  intros Hty Ha Hs Hr Hav A.
  split; [now apply syntheticRows_array |].
  split; [now apply chartRows_synthetic |].
  split; [apply synthesize_length |].
  intros k x Hk.
  exists (Math_random (0 + k) - (1 # 2))%Q.
  pose proof (noise_range (0 + k)) as [Hlo Hhi].
  split; [now split |]. split.
  - rewrite (synthesize_nth data xSample 0 k x Hk).
    rewrite (synthetic_y_typed data _ lo hi A); [reflexivity | |].
    + unfold yRange. rewrite Hr. reflexivity.
    + now apply yAvg_typed.
  - intros Hle. split; nra.
Qed.

(** *** Rounding to the nearest double is monotone *)





















(** C7. The claim at an average of 0 over the range [-10, 10]: the y
    value has to be 0 plus a noise of at most a half times 20 times
    0.3, hence between -3 and 3.  The code reads the average with
    [|| 50], which takes 0 for an absent average: whatever is drawn,
    the y value built is 50 plus that noise, between 47 and 53 and
    outside the range of the summary. *)
Theorem synthetic_zero_average_is_centred_on_fifty :
  getOwn (VObj zero_average_summary) "y_average" = num 0
  /\ yAvg (summary_data zero_average_summary) = VNum (Fin 50%Q)
  /\ exists y : Q,
       chartRows (summary_data zero_average_summary) None
       = Return (Some [[("x", num 1); ("y", VNum (Fin y))]])
       /\ (47 <= y /\ y < 53)%Q
       /\ ~ (exists noise : Q,
               (- (1 # 2) <= noise /\ noise < 1 # 2)%Q
               /\ (y == 0 + noise * (10 - -10) * (3 # 10))%Q).
Proof.
  split; [reflexivity |]. split; [reflexivity |].
  eexists. split; [reflexivity |].
  pose proof (noise_range 0) as [Hlo Hhi].
  assert (Hy : (47 <= 50 + (Math_random 0 - (1 # 2))
                            * (inject_Z 10 - inject_Z (-10)) * (3 # 10)
                /\ 50 + (Math_random 0 - (1 # 2))
                         * (inject_Z 10 - inject_Z (-10)) * (3 # 10) < 53)%Q).
  { change (inject_Z 10) with 10%Q. change (inject_Z (-10)) with (-10)%Q.
    split; lra. }
  split; [exact Hy |].
  intros (noise & [Hn1 Hn2] & Hq).
  destruct Hy as [Hy _]. rewrite Hq in Hy. lra.
Qed.

End Properties.

(** ** Properties of the rest of the component *)

Section Coverage.
Context {host : Host}.

Lemma keep_row_throws (kx ky row : value) :
  keep_row kx ky row = Throws <-> nullish row = true.
Proof.
  unfold keep_row, get. destruct (nullish row); simpl.
  - split; reflexivity.
  - destruct (nullish (getOwn row (ToString kx))); simpl;
      split; discriminate.
Qed.

Lemma keep_row_returns (kx ky row : value) :
  nullish row = false ->
  keep_row kx ky row = Return (both_present kx ky row).
Proof.
  intros H. unfold keep_row, get, both_present. rewrite H; simpl.
  destruct (nullish (getOwn row (ToString kx))); reflexivity.
Qed.

Lemma filter_rows_returns (kx ky : value) (rows : list value) :
  existsb nullish rows = false ->
  filter_rows kx ky rows = Return (filter (both_present kx ky) rows).
Proof.
  induction rows as [| row rest IH]; simpl; [reflexivity |].
  intros H. apply orb_false_elim in H as [Hrow Hrest].
  rewrite (keep_row_returns kx ky row Hrow); simpl.
  rewrite (IH Hrest); simpl.
  now destruct (both_present kx ky row).
Qed.

Lemma filter_rows_throws (kx ky : value) (rows : list value) :
  filter_rows kx ky rows = Throws <-> existsb nullish rows = true.
Proof.
  split.
  - intros H. destruct (existsb nullish rows) eqn:E; [reflexivity |].
    rewrite (filter_rows_returns kx ky rows E) in H. discriminate.
  - induction rows as [| row rest IH]; simpl; [discriminate |].
    intros H. destruct (nullish row) eqn:Hrow.
    + now rewrite (proj2 (keep_row_throws kx ky row) Hrow).
    + rewrite (keep_row_returns kx ky row Hrow); simpl.
      simpl in H. now rewrite (IH H).
Qed.

Lemma item_get_point_x (kx x ky y : value) :
  String.eqb (ToString kx) (ToString ky) = false ->
  item_get (point kx x ky y) kx = x.
Proof.
  intros E. unfold item_get, point. rewrite E; simpl.
  now rewrite String.eqb_refl.
Qed.

Lemma item_get_point_same (kx x ky y : value) :
  String.eqb (ToString kx) (ToString ky) = true ->
  item_get (point kx x ky y) kx = y.
Proof.
  intros E. unfold item_get, point. rewrite E; simpl.
  now rewrite String.eqb_sym, E.
Qed.



(** X3. For rows whose cells are scalars and columns that are scalars,
    reading the SQL result with both columns resolved throws exactly
    when one of the rows is [undefined] or [null]; with a column
    unresolved the rows are not read and nothing is thrown. *)
Theorem authoritative_rows_throw_on_null_row
  (data : VisualizationData) (rows : list value) :
  is_primitive (xResolved data) = true ->
  is_primitive (yResolved data) = true ->
  forallb scalar_cells rows = true ->
  (truthy (xResolved data) && truthy (yResolved data) = true ->
   (authoritativeRows data (Some rows) = Throws
    <-> existsb nullish rows = true))
  /\ (truthy (xResolved data) && truthy (yResolved data) = false ->
      authoritativeRows data (Some rows) = Return []).
Proof.
  intros _ _ _.
  unfold authoritativeRows. split; intros H; rewrite H; [| reflexivity].
  rewrite <- (filter_rows_throws (xResolved data) (yResolved data) rows).
  destruct (filter_rows (xResolved data) (yResolved data) rows); simpl;
    split; congruence.
Qed.

Lemma filter_rows_kept (kx ky : value) (rows kept : list value) :
  filter_rows kx ky rows = Return kept ->
  forall row, In row kept ->
    In row rows /\ nullish row = false /\ both_present kx ky row = true.
Proof.
  revert kept. induction rows as [| r rest IH]; simpl; intros kept H row Hin.
  - injection H as <-. destruct Hin.
  - destruct (nullish r) eqn:Hr.
    + rewrite (proj2 (keep_row_throws kx ky r) Hr) in H. discriminate.
    + rewrite (keep_row_returns kx ky r Hr) in H; simpl in H.
      destruct (filter_rows kx ky rest) as [kept' |]; simpl in H;
        [| discriminate].
      injection H as <-.
      destruct (both_present kx ky r) eqn:Hb.
      * destruct Hin as [<- | Hin]; [auto |].
        destruct (IH kept' eq_refl row Hin) as (? & ? & ?); auto.
      * destruct (IH kept' eq_refl row Hin) as (? & ? & ?); auto.
Qed.

Lemma number_or_zero_is_finite (n : number) :
  exists q : Q, or_ (VNum n) (VNum (Fin 0%Q)) = VNum (Fin q).
Proof.
  unfold or_. destruct n as [| q]; simpl; [eauto |].
  destruct (Qeq_bool q 0); simpl; eauto.
Qed.

Lemma authoritative_point_shape
  (data : VisualizationData) (rows : option (list value))
  (chartData : list ChartDataPoint) :
  authoritativeRows data rows = Return chartData ->
  forall p, In p chartData ->
    (exists n : number, item_get p (yResolved data) = VNum n /\ n <> NaN)
    /\ nullish (item_get p (xResolved data)) = false.
Proof.
  unfold authoritativeRows.
  destruct (truthy (xResolved data) && truthy (yResolved data));
    [| intros [= <-] p []].
  destruct rows as [rows |]; [| intros [= <-] p []].
  destruct (filter_rows (xResolved data) (yResolved data) rows)
    as [kept |] eqn:Hk; simpl; [| discriminate].
  intros [= <-] p Hp. apply in_map_iff in Hp as (row & <- & Hrow).
  destruct (filter_rows_kept _ _ _ _ Hk row Hrow) as (_ & _ & Hb).
  unfold chart_row.
  destruct (number_or_zero_is_finite
              (ToNumber (getOwn row (ToString (yResolved data))))) as [q Hq].
  rewrite Hq. split.
  - exists (Fin q). split; [apply item_get_point | discriminate].
  - destruct (String.eqb (ToString (xResolved data))
                         (ToString (yResolved data))) eqn:E.
    + now rewrite (item_get_point_same _ _ _ _ E).
    + rewrite (item_get_point_x _ _ _ _ E).
      unfold both_present in Hb. apply andb_prop in Hb as [Hb _].
      now apply negb_true_iff in Hb.
Qed.

(** X4. For rows whose cells are scalars and columns that are scalars,
    every point taken from the SQL result has a y value that is a
    number other than [NaN] (what does not read as a number became 0)
    and an x value that is neither [undefined] nor [null], also when
    both columns have the same name. *)
Theorem authoritative_points_are_plottable
  (data : VisualizationData) (rows : option (list value))
  (chartData : list ChartDataPoint) :
  is_primitive (xResolved data) = true ->
  is_primitive (yResolved data) = true ->
  scalar_rows rows = true ->
  authoritativeRows data rows = Return chartData ->
  forall p, In p chartData ->
    (exists n : number, item_get p (yResolved data) = VNum n /\ n <> NaN)
    /\ nullish (item_get p (xResolved data)) = false.
Proof.
  intros _ _ _ Ha p Hp.
  destruct (authoritative_point_shape data rows chartData Ha p Hp) as [Hy Hx].
  split; [exact Hy | exact Hx].
Qed.

Lemma truthy_str_nonempty (s : string) :
  truthy (VStr s) = true -> s <> EmptyString.
Proof. destruct s; simpl; congruence. Qed.

(** X1. What is on screen tells which path was taken.  The dispatcher
    never shows the no-data card.  An image card means [image] is a
    non-empty string, and its source is the URL built from it.  A
    chart card means there is no image, the chart branch found chart
    data, which is not empty, and the chart is the one drawn from that
    data.  A text card means there is no image, the chart branch gave
    nothing, and the body is the non-empty [text]. *)
Theorem rendered_card_tells_its_path
  (data : VisualizationData) (rows : option (list value))
  (p : Plan) (e : Element) :
  Visualization (Some data) rows = Return p ->
  visible p = Some e ->
  match e with
  | NoDataCard => False
  | ImageCard h src alt =>
      exists img, image data = VStr img /\ img <> EmptyString
                  /\ h = title data /\ src = imageUrl data img
  | ChartCard h c f =>
      truthy (image data) = false
      /\ exists chartData,
           chartRows data rows = Return (Some chartData)
           /\ chartData <> []
           /\ h = chartTitle data /\ c = renderChart data chartData
  | TextCard h b =>
      truthy (image data) = false
      /\ chartRows data rows = Return None
      /\ b = text data /\ truthy b = true
  end.
Proof.
  unfold Visualization.
  destruct (is_str (vizType data) "image" || truthy (image data)) eqn:Himg.
  - unfold ImageVisualization.
    destruct (truthy (image data)) eqn:Ht; simpl.
    + destruct (image data) as [| | b | n | img | l | o] eqn:Hi; simpl;
        try discriminate.
      intros [= <-] [= <-]. exists img.
      repeat split. now apply truthy_str_nonempty.
    + intros [= <-]; discriminate.
  - apply orb_false_elim in Himg as [_ Hti].
    destruct (chartRows data rows) as [[chartData |] |] eqn:Hc; simpl;
      try discriminate.
    + pose proof (chartRows_nonempty _ _ _ Hc) as Hne.
      unfold ChartVisualization.
      destruct chartData as [| pt chartData]; [congruence |].
      destruct (chartFooter data (pt :: chartData)) as [f |]; simpl;
        [| discriminate].
      intros [= <-] [= <-]. split; [exact Hti |].
      exists (pt :: chartData). repeat split. discriminate.
    + destruct (is_str (vizType data) "text" || truthy (text data));
        [| intros [= <-]; discriminate].
      intros [= <-]. unfold TextVisualization; simpl.
      destruct (truthy (text data)) eqn:Htx; simpl; [| discriminate].
      intros [= <-]. repeat split; assumption.
Qed.

(** X5. Over chart data whose values are scalars, with columns that
    are scalars, rendering a chart throws exactly when the summary is
    there with a truthy [y_range] whose element 0 or 1 is not a
    number; with no chart data it returns the no-data card and does
    not look at the summary. *)
Theorem chart_card_throws_on_malformed_range
  (data : VisualizationData) (p : ChartDataPoint)
  (chartData : list ChartDataPoint) :
  forallb plain_point (p :: chartData) = true ->
  is_primitive (xColumn data) = true ->
  is_primitive (yColumn data) = true ->
  (ChartVisualization data (p :: chartData) = Throws
   <-> truthy (data_summary data) = true
       /\ truthy (getOwn (data_summary data) "y_range") = true
       /\ is_number (getOwn (getOwn (data_summary data) "y_range") "0")
          && is_number (getOwn (getOwn (data_summary data) "y_range") "1")
          = false)
  /\ ChartVisualization data [] = Return NoDataCard.
Proof.
  intros _ _ _.
  split; [| reflexivity].
  unfold ChartVisualization, chartFooter.
  destruct (truthy (data_summary data)); simpl.
  - destruct (truthy (getOwn (data_summary data) "y_range")); simpl.
    + destruct (getOwn (getOwn (data_summary data) "y_range") "0");
        destruct (getOwn (getOwn (data_summary data) "y_range") "1");
        simpl; split; try discriminate; try tauto;
        intros (_ & _ & H); discriminate.
    + split; [discriminate | intros (_ & H & _); discriminate].
  - split; [discriminate | intros (H & _); discriminate].
Qed.

Lemma syntheticRows_well_typed (data : VisualizationData) :
  wt_data_summary (data_summary data) = true ->
  exists s, syntheticRows data = Return s.
Proof.
  unfold syntheticRows, wt_data_summary, optget.
  destruct (data_summary data) as [| | b | n | s | l | fields];
    try discriminate; simpl; eauto.
  intros H. apply andb_prop in H as [H _]. apply andb_prop in H as [H _].
  apply andb_prop in H as [H _].
  destruct (assoc "x_data_sample" fields); try discriminate H; simpl; eauto.
Qed.

(** X6. The dispatcher does not throw on data of the declared shape:
    when [image] is a string or falsy, [mimeType] and the columns are
    scalars, the rows are there without [undefined] or [null] among
    them and with scalar cells, and [data_summary] has the shape of
    the interface with a sample of scalars, [Visualization] returns. *)
Theorem dispatcher_returns_on_well_typed_data
  (data : VisualizationData) (rows : option (list value)) :
  wt_image (image data) = true ->
  is_primitive (mimeType data) = true ->
  is_primitive (xColumn data) = true ->
  is_primitive (yColumn data) = true ->
  wt_rows rows = true ->
  scalar_rows rows = true ->
  wt_data_summary (data_summary data) = true ->
  scalar_sample (optget (data_summary data) "x_data_sample") = true ->
  exists p, Visualization (Some data) rows = Return p.
Proof.
  intros Hi _ _ _ Hr _ Hs _. unfold Visualization.
  destruct (is_str (vizType data) "image" || truthy (image data)).
  - unfold ImageVisualization, wt_image in *.
    destruct (image data); simpl in *;
      try discriminate Hi;
      try (apply negb_true_iff in Hi; rewrite Hi);
      simpl; eauto.
    destruct (str_truthy s); simpl; eauto.
  - assert (Ha : exists a, authoritativeRows data rows = Return a).
    { unfold authoritativeRows.
      destruct (truthy (xResolved data) && truthy (yResolved data)); eauto.
      destruct rows as [l |]; eauto.
      unfold wt_rows in Hr. apply negb_true_iff in Hr.
      rewrite (filter_rows_returns _ _ l Hr); simpl; eauto. }
    destruct Ha as [a Ha].
    destruct (syntheticRows_well_typed data Hs) as [s Hsy].
    assert (Hc : exists c, chartRows data rows = Return c).
    { unfold chartRows. destruct (chartBranch data rows); eauto.
      rewrite Ha; simpl. destruct a; eauto.
      rewrite Hsy; simpl. destruct s; eauto. }
    destruct Hc as [[chartData |] Hc]; rewrite Hc; simpl.
    + unfold ChartVisualization.
      destruct chartData as [| c chartData]; [simpl; eauto |].
      destruct (chartFooter_well_typed data (c :: chartData) Hs) as [f Hf].
      rewrite Hf; simpl; eauto.
    + destruct (is_str (vizType data) "text" || truthy (text data)); eauto.
Qed.

(** X7. On the image path (type [image], or a truthy [image]), with
    a [mimeType] that is a scalar, rows, chart fields and text play no
    part: with a falsy [image] the wrapper is returned empty, and with
    a truthy one the dispatcher throws exactly when [image] is not a
    string. *)
Theorem image_path_outcomes
  (data : VisualizationData) (rows : option (list value)) :
  is_primitive (mimeType data) = true ->
  is_str (vizType data) "image" || truthy (image data) = true ->
  (truthy (image data) = false ->
   Visualization (Some data) rows = Return (PWrap None))
  /\ (truthy (image data) = true ->
      (Visualization (Some data) rows = Throws
       <-> forall s, image data <> VStr s)).
Proof.
  intros _ H. unfold Visualization, ImageVisualization. rewrite H. split.
  - intros ->; reflexivity.
  - intros ->; simpl.
    destruct (image data); simpl; split;
      try discriminate; try (intros _ s; discriminate); try reflexivity.
    intros Hs. now destruct (Hs s).
Qed.

(** X8. A summary whose [x_data_sample] is truthy but not an array
    makes a chart descriptor without image and without rows from the
    SQL result throw, since only an array has [forEach]. *)
Theorem non_array_sample_throws
  (data : VisualizationData) (rows : option (list value)) :
  type data = VStr "chart" ->
  truthy (image data) = false ->
  authoritativeRows data rows = Return [] ->
  truthy (optget (data_summary data) "x_data_sample") = true ->
  isArray (optget (data_summary data) "x_data_sample") = false ->
  syntheticRows data = Throws
  /\ Visualization (Some data) rows = Throws.
Proof.
  intros Hty Him Ha Ht Harr.
  assert (Hs : syntheticRows data = Throws).
  { unfold syntheticRows. rewrite Ht.
    destruct (optget (data_summary data) "x_data_sample");
      try reflexivity; discriminate. }
  split; [exact Hs |].
  unfold Visualization, chartRows, chartBranch.
  rewrite (vizType_str data "chart" Hty) by discriminate.
  rewrite Him, Ha; simpl. now rewrite Hs.
Qed.

Lemma prefix_append (a b : string) : String.prefix a (a ++ b) = true.
Proof.
  induction a as [| c a IH]; simpl; [now destruct b |].
  destruct (ascii_dec c c); [exact IH | congruence].
Qed.

(** X9. The source of an image card always starts with [data:], and
    building the URL of a URL changes nothing. *)
Theorem imageUrl_is_a_data_url (data : VisualizationData) (img : string) :
  String.prefix "data:" (imageUrl data img) = true
  /\ imageUrl data (imageUrl data img) = imageUrl data img.
Proof.
  assert (H : String.prefix "data:" (imageUrl data img) = true).
  { unfold imageUrl. destruct (String.prefix "data:" img) eqn:E;
      [exact E | apply prefix_append]. }
  split; [exact H |].
  unfold imageUrl at 1. now rewrite H.
Qed.

Lemma or_default_truthy (a b : value) :
  truthy b = true -> truthy (or_ a b) = true.
Proof. intros H. unfold or_. now destruct (truthy a) eqn:E. Qed.

Lemma normalize_complete (viz : value) (d : VisualizationData) :
  normalize viz = Return d ->
  truthy (type d) = true /\ truthy (chart_type d) = true
  /\ truthy (title d) = true.
Proof.
  unfold normalize. destruct (nullish viz); [discriminate |].
  intros [= <-]; cbn [type chart_type title].
  repeat split; now apply or_default_truthy.
Qed.

Lemma embedded_is_normalized (content : value) (d : VisualizationData) :
  embeddedVisualization content = Some d ->
  exists v, truthy v = true /\ normalize v = Return d.
Proof.
  unfold embeddedVisualization, parseEmbedded.
  destruct content as [| | b | n | s | l | o]; try discriminate.
  destruct (Regex.find_match s) as [m |]; [| discriminate].
  destruct (JSON_parse ("{" ++ m ++ "}")) as [parsed |]; [| discriminate].
  destruct (get parsed "visualization") as [v |]; simpl; [| discriminate].
  destruct (truthy v) eqn:Hv; simpl; [| discriminate].
  destruct (normalize v) as [d' |] eqn:Hn; simpl; [| discriminate].
  intros [= <-]. eauto.
Qed.

(** X10. Whatever the content and the state, the descriptor extracted
    has a truthy [type], [chart_type] and [title]; so the dispatcher
    never reads it as a text descriptor by default, and the chart
    renderer uses its chart type and title as they are. *)
Theorem extracted_descriptor_is_complete
  (content state : value) (e : Extraction) :
  extractVisualizationData content state = Return e ->
  exists d,
    visualization e = Some d
    /\ truthy (type d) = true /\ truthy (chart_type d) = true
    /\ truthy (title d) = true
    /\ vizType d = type d /\ chartType d = chart_type d
    /\ chartTitle d = title d.
Proof.
  intros He.
  assert (H : exists d, visualization e = Some d
                        /\ truthy (type d) = true
                        /\ truthy (chart_type d) = true
                        /\ truthy (title d) = true).
  { revert He. unfold extractVisualizationData.
    destruct (truthy (stateVizOf state)).
    - destruct (normalize (stateVizOf state)) as [d |] eqn:Hn; simpl;
        [| discriminate].
      intros [= <-]. exists d. split; [reflexivity |].
      now apply normalize_complete with (stateVizOf state).
    - destruct (embeddedVisualization content) as [d |] eqn:Hem;
        intros [= <-].
      + exists d. split; [reflexivity |].
        destruct (embedded_is_normalized _ _ Hem) as (v & _ & Hn).
        now apply normalize_complete with v.
      + exists defaultVisualization. repeat split. }
  destruct H as (d & Hd & Ht & Hc & Hti).
  exists d. repeat split; try assumption.
  - unfold vizType. now rewrite or_truthy.
  - unfold chartType. now rewrite !or_truthy by (now rewrite ?or_truthy).
  - unfold chartTitle. now rewrite !or_truthy by (now rewrite ?or_truthy).
Qed.

Lemma or_absorb_left (a b : value) : or_ a (or_ a b) = or_ a b.
Proof. unfold or_. now destruct (truthy a). Qed.

Lemma or_default_idem (a c : value) :
  truthy c = true -> or_ (or_ a c) c = or_ a c.
Proof.
  intros Hc. unfold or_. destruct (truthy a) eqn:Ha; rewrite ?Ha, ?Hc;
    reflexivity.
Qed.

Lemma or_chain_again (a b c : value) :
  truthy c = true ->
  or_ (or_ a (or_ (or_ a b) c)) c = or_ (or_ a b) c.
Proof.
  intros Hc. unfold or_.
  destruct (truthy a) eqn:Ha; rewrite ?Ha; [reflexivity |].
  destruct (truthy b) eqn:Hb; rewrite ?Hb, ?Hc; reflexivity.
Qed.

Lemma or_chain_first_again (a b c : value) :
  truthy c = true ->
  or_ (or_ (or_ (or_ a b) c) b) c = or_ (or_ a b) c.
Proof.
  intros Hc. unfold or_.
  destruct (truthy a) eqn:Ha; rewrite ?Ha; [reflexivity |].
  destruct (truthy b) eqn:Hb; rewrite ?Hb, ?Hc; reflexivity.
Qed.

(** X11. Extraction is idempotent: normalizing the object that
    normalization returned gives the same descriptor, and so does
    extracting from a state whose [visualization] is that object. *)
Theorem normalization_is_idempotent
  (viz : value) (d : VisualizationData) (content : value) :
  normalize viz = Return d ->
  normalize (toObject d) = Return d
  /\ extractVisualizationData content
       (VObj [("visualization", toObject d)])
     = Return {| visualization := Some d; sqlResult := None |}.
Proof.
  intros H.
  assert (Hn : normalize (toObject d) = Return d).
  { revert H. unfold normalize at 1.
    destruct (nullish viz); [discriminate |]. intros [= <-].
    unfold normalize, toObject. cbn.
    f_equal. f_equal.
    - now apply or_default_idem.
    - now apply or_chain_again.
    - apply or_absorb_left.
    - apply or_absorb_left.
    - now apply or_chain_first_again. }
  split; [exact Hn |].
  unfold extractVisualizationData.
  change (stateVizOf (VObj [("visualization", toObject d)]))
    with (toObject d).
  change (truthy (toObject d)) with true. cbv iota.
  now rewrite Hn.
Qed.

(** X12. The rows handed on are decided by [final_response.sql.result]
    alone as soon as it is truthy: when it is an array the rows are
    its elements, and when it is not, there are no rows even if
    [sql_result] holds an array.  [sql_result] is read only when the
    first is falsy. *)
Theorem first_result_path_decides_the_rows (state : value) :
  let first := optget (optget (optget state "final_response") "sql") "result" in
  (truthy first = true ->
   (forall l, first = VArr l -> rowsOf state = Some l)
   /\ (isArray first = false -> rowsOf state = None))
  /\ (truthy first = false ->
      (forall l, optget state "sql_result" = VArr l -> rowsOf state = Some l)
      /\ (isArray (optget state "sql_result") = false -> rowsOf state = None)).
Proof.
  cbn zeta. unfold rowsOf, sqlResultOf. split; intros H.
  - rewrite (or_truthy _ _ H). split.
    + now intros l ->.
    + now destruct (optget (optget (optget state "final_response") "sql")
                      "result").
  - rewrite (or_falsy _ _ H). split.
    + now intros l ->.
    + now destruct (optget state "sql_result").
Qed.

(** X13. When neither the state nor the content gives a
    visualization, what is extracted renders as nothing, whatever rows
    the state holds: the default descriptor has no columns, no
    summary and no text. *)
Theorem default_descriptor_renders_nothing (content state : value) :
  truthy (stateVizOf state) = false ->
  embeddedVisualization content = None ->
  exists e,
    extractVisualizationData content state = Return e
    /\ Visualization (visualization e) (sqlResult e) = Return PNull.
Proof.
  intros Hs He. unfold extractVisualizationData. rewrite Hs, He.
  eexists. split; reflexivity.
Qed.

Lemma append_assoc (a b c : string) : ((a ++ b) ++ c = a ++ (b ++ c))%string.
Proof. induction a as [| x a IH]; simpl; [reflexivity | now rewrite IH]. Qed.

Lemma length_append (a b : string) :
  String.length (a ++ b) = String.length a + String.length b.
Proof. induction a as [| x a IH]; simpl; [reflexivity | now rewrite IH]. Qed.

Lemma substring_append (a b : string) :
  String.substring 0 (String.length a) (a ++ b) = a.
Proof.
  induction a as [| x a IH]; simpl; [now destruct b | now rewrite IH].
Qed.

Lemma strip_prefix_sound (lit s r : string) :
  Regex.strip_prefix lit s = Some r -> s = lit ++ r.
Proof.
  revert s. induction lit as [| a lit IH]; intros s; simpl.
  - now intros [= <-].
  - destruct s as [| b s]; [discriminate |].
    destruct (Ascii.eqb a b) eqn:E; [| discriminate].
    apply Ascii.eqb_eq in E as ->. intros H. now rewrite (IH s H).
Qed.

Lemma skip_spaces_sound (s : string) :
  forall n r, Regex.skip_spaces s = (n, r) ->
  exists sp, s = sp ++ r /\ String.length sp = n /\ all_spaces sp = true.
Proof.
  induction s as [| c s IH]; simpl; intros n r.
  - intros [= <- <-]. now exists EmptyString.
  - destruct (Regex.is_space c) eqn:E.
    + destruct (Regex.skip_spaces s) as [n' r'].
      intros [= <- <-].
      destruct (IH n' r' eq_refl) as (sp & -> & <- & Hsp).
      exists (String c sp). simpl. now rewrite E, Hsp.
    + intros [= <- <-]. now exists EmptyString.
Qed.

Lemma expect_sound (c : ascii) (s r : string) :
  Regex.expect c s = Some r -> s = String c r.
Proof.
  destruct s as [| d s]; simpl; [discriminate |].
  destruct (Ascii.eqb c d) eqn:E; [| discriminate].
  apply Ascii.eqb_eq in E as ->. now intros [= <-].
Qed.

Lemma scan_sound (s : string) :
  forall inner n, Regex.scan inner s = Some n ->
  exists body rest,
    s = body ++ String "}" rest
    /\ n = S (String.length body)
    /\ shallow inner body = true.
Proof.
  induction s as [| c s IH]; simpl; intros inner n; [discriminate |].
  destruct (Ascii.eqb c "}") eqn:Ec.
  - apply Ascii.eqb_eq in Ec as ->. destruct inner.
    + destruct (Regex.scan false s) as [m |] eqn:Hs; simpl; [| discriminate].
      intros [= <-].
      destruct (IH false m Hs) as (body & rest & -> & -> & Hb).
      exists (String "}" body), rest. now simpl.
    + intros [= <-]. now exists EmptyString, s.
  - destruct (Ascii.eqb c "{") eqn:Eo.
    + apply Ascii.eqb_eq in Eo as ->. destruct inner; [discriminate |].
      destruct (Regex.scan true s) as [m |] eqn:Hs; simpl; [| discriminate].
      intros [= <-].
      destruct (IH true m Hs) as (body & rest & -> & -> & Hb).
      exists (String "{" body), rest. now simpl.
    + destruct (Regex.scan inner s) as [m |] eqn:Hs; simpl; [| discriminate].
      intros [= <-].
      destruct (IH inner m Hs) as (body & rest & -> & -> & Hb).
      exists (String c body), rest. simpl. now rewrite Ec, Eo.
Qed.

Lemma match_here_sound (s : string) (n : nat) :
  Regex.match_here s = Some n ->
  exists sp1 sp2 body rest,
    s = (Regex.key ++ sp1 ++ ":" ++ sp2 ++ "{" ++ body ++ "}") ++ rest
    /\ n = String.length (Regex.key ++ sp1 ++ ":" ++ sp2 ++ "{" ++ body ++ "}")
    /\ all_spaces sp1 = true /\ all_spaces sp2 = true
    /\ shallow false body = true.
Proof.
  unfold Regex.match_here.
  destruct (Regex.strip_prefix Regex.key s) as [r0 |] eqn:H0; [| discriminate].
  destruct (Regex.skip_spaces r0) as [n1 r1] eqn:H1.
  destruct (Regex.expect ":" r1) as [r2 |] eqn:H2; [| discriminate].
  destruct (Regex.skip_spaces r2) as [n2 r3] eqn:H3.
  destruct (Regex.expect "{" r3) as [r4 |] eqn:H4; [| discriminate].
  destruct (Regex.scan false r4) as [m |] eqn:H5; [| discriminate].
  intros [= <-].
  apply strip_prefix_sound in H0.
  destruct (skip_spaces_sound _ _ _ H1) as (sp1 & E1 & L1 & S1).
  apply expect_sound in H2.
  destruct (skip_spaces_sound _ _ _ H3) as (sp2 & E3 & L2 & S2).
  apply expect_sound in H4.
  destruct (scan_sound _ _ _ H5) as (body & rest & E5 & -> & Hb).
  exists sp1, sp2, body, rest.
  subst s r0 r1 r2 r3 r4 n1 n2. repeat split; try assumption.
  - repeat first [rewrite append_assoc | progress simpl]. reflexivity.
  - repeat first [rewrite length_append | progress simpl]. lia.
Qed.

Lemma match_here_text (s : string) (n : nat) :
  Regex.match_here s = Some n ->
  exists sp1 sp2 body rest,
    s = String.substring 0 n s ++ rest
    /\ String.substring 0 n s
       = Regex.key ++ sp1 ++ ":" ++ sp2 ++ "{" ++ body ++ "}"
    /\ all_spaces sp1 = true /\ all_spaces sp2 = true
    /\ shallow false body = true.
Proof.
  intros Hm.
  destruct (match_here_sound _ _ Hm) as (sp1 & sp2 & body & rest & E & -> & H).
  exists sp1, sp2, body, rest.
  assert (Hsub : String.substring 0
                   (String.length
                      (Regex.key ++ sp1 ++ ":" ++ sp2 ++ "{" ++ body ++ "}")) s
                 = Regex.key ++ sp1 ++ ":" ++ sp2 ++ "{" ++ body ++ "}")
    by (rewrite E at 1; apply substring_append).
  rewrite Hsub. auto.
Qed.

Lemma find_match_unfold (s : string) :
  Regex.find_match s
  = match Regex.match_here s with
    | Some n => Some (String.substring 0 n s)
    | None =>
        match s with
        | EmptyString => None
        | String _ s' => Regex.find_match s'
        end
    end.
Proof. destruct s; reflexivity. Qed.

(** X14. What the pattern finds in a content is a piece of that
    content made of the quoted word visualization, white space, a
    colon, white space, and a braced body that ends with its closing
    brace and in which braces open at most one level deep. *)
Theorem find_match_sound (content jsonMatch : string) :
  Regex.find_match content = Some jsonMatch ->
  exists before sp1 sp2 body after,
    content = before ++ jsonMatch ++ after
    /\ jsonMatch = Regex.key ++ sp1 ++ ":" ++ sp2 ++ "{" ++ body ++ "}"
    /\ all_spaces sp1 = true /\ all_spaces sp2 = true
    /\ shallow false body = true.
Proof.
  induction content as [| c s IH]; rewrite find_match_unfold.
  - discriminate.
  - remember (String c s) as t eqn:Et.
    destruct (Regex.match_here t) as [n |] eqn:Hm.
    + intros Hf.
      assert (Ej : jsonMatch = String.substring 0 n t) by congruence.
      destruct (match_here_text _ _ Hm)
        as (sp1 & sp2 & body & rest & E & Etext & H).
      exists EmptyString, sp1, sp2, body, rest.
      rewrite Ej. split; [exact E | split; [exact Etext | exact H]].
    + subst t. intros Hf.
      destruct (IH Hf) as (before & sp1 & sp2 & body & rest & E & H).
      exists (String c before), sp1, sp2, body, rest.
      split; [| exact H]. simpl. now rewrite <- E.
Qed.

(** X15. Every slice of a pie has a cell, and every cell a colour of
    the palette: the colours are taken in order and start again after
    the eighth. *)
Theorem pie_cells_cycle_through_the_palette (pieData : list ChartDataPoint) :
  List.length (pieCells pieData) = List.length pieData
  /\ (forall index,
        index < List.length pieData ->
        exists colour,
          nth_error (pieCells pieData) index = Some (Some colour)
          /\ nth_error COLORS (index mod 8) = Some colour
          /\ In colour COLORS)
  /\ (forall index, cellFill (index + 8) = cellFill index).
Proof.
  split; [| split].
  - unfold pieCells. now rewrite length_map, length_seq.
  - intros index Hi.
    assert (Hm : index mod 8 < List.length COLORS)
      by (apply Nat.mod_upper_bound; discriminate).
    destruct (nth_error COLORS (index mod 8)) as [colour |] eqn:Hc.
    + exists colour. split; [| split; [reflexivity |]].
      * unfold pieCells. rewrite nth_error_map, nth_error_seq.
        apply Nat.ltb_lt in Hi. rewrite Hi; simpl.
        unfold cellFill. exact (f_equal Some Hc).
      * now apply nth_error_In with (index mod 8).
    + apply nth_error_None in Hc. lia.
  - intros index. unfold cellFill.
    change (List.length COLORS) with 8.
    now rewrite <- (Nat.Div0.mod_add index 1 8), Nat.mul_1_l.
Qed.

(** X16. On chart data taken from the SQL result (rows with scalar
    cells, columns that are scalars) the chart renderer reads the
    columns the dispatcher wrote: its x and y keys are the resolved
    columns, not the defaults.  So every slice of a pie over such data
    has a value that is a number other than [NaN]. *)
Theorem pie_over_sql_rows_reads_the_written_columns
  (data : VisualizationData) (rows : option (list value))
  (chartData : list ChartDataPoint) :
  is_primitive (xResolved data) = true ->
  is_primitive (yResolved data) = true ->
  scalar_rows rows = true ->
  authoritativeRows data rows = Return chartData ->
  chartData <> [] ->
  xColumn data = xResolved data
  /\ yColumn data = yResolved data
  /\ forall p, In p chartData ->
       exists (name : string) (n : number),
         pieSlice data p = [("name", VStr name); ("value", VNum n)]
         /\ n <> NaN.
Proof.
  intros _ _ _ Ha Hne.
  assert (Hxy : truthy (xResolved data) && truthy (yResolved data) = true).
  { revert Ha. unfold authoritativeRows.
    destruct (truthy (xResolved data) && truthy (yResolved data));
      [reflexivity |].
    intros [= <-]. congruence. }
  apply andb_prop in Hxy as [Hx Hy].
  assert (Ex : xColumn data = xResolved data)
    by (unfold xColumn; fold (xResolved data); now apply or_truthy).
  assert (Ey : yColumn data = yResolved data)
    by (unfold yColumn; fold (yResolved data); now apply or_truthy).
  split; [exact Ex |]. split; [exact Ey |].
  intros p Hp.
  destruct (authoritative_point_shape data rows chartData Ha p Hp)
    as [(n & Hn & Hnan) _].
  unfold pieSlice. rewrite Ey, Hn.
  destruct (number_or_zero_is_finite n) as [q Hq]. rewrite Hq.
  eexists; eexists. split; [reflexivity | discriminate].
Qed.

Lemma strip_prefix_append (lit r : string) :
  Regex.strip_prefix lit (lit ++ r) = Some r.
Proof.
  induction lit as [| a lit IH]; simpl; [reflexivity |].
  now rewrite Ascii.eqb_refl.
Qed.

Lemma skip_spaces_append (sp : string) (c : ascii) (r : string) :
  all_spaces sp = true ->
  Regex.is_space c = false ->
  Regex.skip_spaces (sp ++ String c r) = (String.length sp, String c r).
Proof.
  intros Hsp Hc. induction sp as [| a sp IH]; simpl.
  - now rewrite Hc.
  - simpl in Hsp. apply andb_prop in Hsp as [Ha Hsp].
    now rewrite Ha, (IH Hsp).
Qed.

Lemma scan_complete (body rest : string) :
  forall inner,
    shallow inner body = true ->
    Regex.scan inner (body ++ String "}" rest) = Some (S (String.length body)).
Proof.
  induction body as [| c body IH]; simpl; intros inner H.
  - now destruct inner.
  - destruct (Ascii.eqb c "}").
    + destruct inner; [| discriminate]. now rewrite (IH false H).
    + destruct (Ascii.eqb c "{").
      * destruct inner; [discriminate |]. now rewrite (IH true H).
      * now rewrite (IH inner H).
Qed.

(** X17. Conversely, a content that starts with the quoted word
    visualization, white space, a colon, white space and a braced body
    whose braces open at most one level deep is matched from its
    start, up to the brace that closes the body, whatever follows. *)
Theorem find_match_complete (sp1 sp2 body after : string) :
  all_spaces sp1 = true ->
  all_spaces sp2 = true ->
  shallow false body = true ->
  Regex.find_match
    ((Regex.key ++ sp1 ++ ":" ++ sp2 ++ "{" ++ body ++ "}") ++ after)
  = Some (Regex.key ++ sp1 ++ ":" ++ sp2 ++ "{" ++ body ++ "}").
Proof.
  intros H1 H2 Hb.
  set (m := Regex.key ++ sp1 ++ ":" ++ sp2 ++ "{" ++ body ++ "}").
  assert (Hm : Regex.match_here (m ++ after) = Some (String.length m)).
  { unfold Regex.match_here, m.
    replace ((Regex.key ++ sp1 ++ ":" ++ sp2 ++ "{" ++ body ++ "}") ++ after)
      with (Regex.key ++ sp1 ++ String ":" (sp2 ++ String "{"
              (body ++ String "}" after)))
      by (repeat first [rewrite append_assoc | progress simpl]; reflexivity).
    rewrite strip_prefix_append.
    rewrite (skip_spaces_append sp1 ":" _ H1 eq_refl).
    simpl Regex.expect. cbv iota beta.
    rewrite (skip_spaces_append sp2 "{" _ H2 eq_refl).
    simpl Regex.expect. cbv iota beta.
    rewrite (scan_complete body after false Hb).
    f_equal. repeat first [rewrite length_append | progress simpl]. lia. }
  rewrite find_match_unfold, Hm. now rewrite substring_append.
Qed.

End Coverage.

(** ** The properties on concrete inputs *)

#[local] Existing Instance Reference.host.


(** C10 on a descriptor that only has a text. *)
Lemma absent_kind_defaults_to_text_witness :
  type text_only_data = VUndefined
  /\ Visualization (Some text_only_data) (Some revenue_rows)
     = Return (PWrap (Some (TextCard VUndefined (VStr "Jan ## Feb ####"))))
  /\ Visualization (Some absent) None = Return (PWrap None).
Proof.
  split; [reflexivity |]. split.
  - apply (absent_kind_defaults_to_text text_only_data (Some revenue_rows));
      reflexivity.
  - apply (absent_kind_defaults_to_text absent None); reflexivity.
Defined.

(** C3 as stated fails: a chart descriptor with a text, whose y column
    is unresolved, with rows and without summary, gets no chart data
    from either fallback, and yet the text card is rendered. *)
Lemma chart_without_rows_renders_text_counterexample :
  type (no_y_data (VStr "Jan ##")) = VStr "chart"
  /\ authoritativeRows (no_y_data (VStr "Jan ##")) (Some revenue_rows) = Return []
  /\ syntheticRows (no_y_data (VStr "Jan ##")) = Return []
  /\ Visualization (Some (no_y_data (VStr "Jan ##"))) (Some revenue_rows)
     = Return (PWrap (Some (TextCard VUndefined (VStr "Jan ##"))))
  /\ visible (PWrap (Some (TextCard VUndefined (VStr "Jan ##")))) <> None.
Proof. repeat split; discriminate. Qed.

(** C3 as amended, on the same descriptor with and without its text. *)
Lemma chart_without_rows_falls_through_to_text_witness :
  Visualization (Some (no_y_data (VStr "Jan ##"))) (Some revenue_rows)
  = Return (PWrap (Some (TextCard VUndefined (VStr "Jan ##"))))
  /\ Visualization (Some (no_y_data VUndefined)) (Some revenue_rows)
     = Return PNull.
Proof.
  split.
  - apply (chart_without_rows_falls_through_to_text
             (no_y_data (VStr "Jan ##")) (Some revenue_rows) eq_refl eq_refl).
    split; reflexivity.
  - apply (chart_without_rows_falls_through_to_text
             (no_y_data VUndefined) (Some revenue_rows) eq_refl eq_refl);
      reflexivity.
Defined.

(** C8 on a radar chart over the revenue rows. *)
Lemma unrecognized_chart_type_renders_placeholder_witness :
  chartRows radar_data (Some revenue_rows) = Return (Some revenue_points)
  /\ exists f,
       Visualization (Some radar_data) (Some revenue_rows)
       = Return (PWrap (Some (ChartCard (VStr "Chart")
                                (Unsupported (VStr "radar")) f))).
Proof.
  split; [reflexivity |].
  destruct (unrecognized_chart_type_renders_placeholder
              radar_data (Some revenue_rows) revenue_points
              eq_refl eq_refl eq_refl eq_refl eq_refl) as [f [H _]].
  exists f. exact H.
Defined.

(** C5 as stated fails: in a state without visualization whose
    [sql_result] holds rows, a message at [final_response.sql.result]
    is truthy and not an array, so the rows handed on are [undefined]
    although one of the two paths holds a sequence. *)
Lemma rows_hidden_by_first_result_path_counterexample :
  optget shadowed_rows_state "sql_result" = VArr revenue_rows
  /\ truthy (stateVizOf shadowed_rows_state) = false
  /\ extractVisualizationData (VStr EmptyString) shadowed_rows_state
     = Return {| visualization := Some defaultVisualization;
                 sqlResult := None |}.
Proof. repeat split. Qed.

(** C5 on a content whose fragment does not parse and a state that
    only has rows. *)
Lemma extraction_always_yields_a_descriptor_witness :
  Regex.find_match malformed_content = Some (Regex.key ++ ": {oops}")
  /\ JSON_parse ("{" ++ Regex.key ++ ": {oops}" ++ "}") = None
  /\ extractVisualizationData (VStr malformed_content) rows_only_state
     = Return {| visualization := Some defaultVisualization;
                 sqlResult := Some revenue_rows |}.
Proof.
  split; [reflexivity |]. split; [reflexivity |].
  destruct (extraction_always_yields_a_descriptor
              (VStr malformed_content) rows_only_state)
    as (_ & Hdefault & Hparse & _).
  apply Hdefault; [reflexivity |].
  apply (Hparse malformed_content (Regex.key ++ ": {oops}"));
    reflexivity.
Defined.

(** C1 as stated fails: with [line], [month] and [sales] at the top
    level and [pie], [region] and [profit] in [spec], the descriptor
    extracted carries the values of [spec], and the chart drawn from it
    is the pie over the columns of [spec]. *)
Lemma extractor_prefers_spec_counterexample :
  getOwn conflicting_viz "chart_type" = VStr "line"
  /\ getOwn conflicting_viz "x_column" = VStr "month"
  /\ getOwn conflicting_viz "y_column" = VStr "sales"
  /\ exists d,
       extractVisualizationData (VStr EmptyString) conflicting_state
       = Return {| visualization := Some d; sqlResult := None |}
       /\ chart_type d = VStr "pie" /\ chart_type d <> VStr "line"
       /\ x_column d = VStr "region" /\ x_column d <> VStr "month"
       /\ y_column d = VStr "profit" /\ y_column d <> VStr "sales"
       /\ renderChart d [] = PieChart [].
Proof.
  repeat split. eexists. split; [reflexivity |].
  repeat split; discriminate.
Qed.

(** C1 as amended, on the same visualization. *)
Lemma resolution_order_of_fields_witness :
  exists d,
    normalize conflicting_viz = Return d
    /\ title d = VStr "Revenue" /\ chartTitle d = VStr "Revenue"
    /\ chart_type d = VStr "pie" /\ chartType d = VStr "pie"
    /\ x_column d = VStr "region" /\ xColumn d = VStr "region"
    /\ y_column d = VStr "profit" /\ yColumn d = VStr "profit".
Proof.
  eexists. split; [reflexivity |].
  match goal with
  | |- title ?d = _ /\ _ =>
      destruct (resolution_order_of_fields conflicting_viz d eq_refl)
        as (_ & _ & Ht & Hc & Hx & Hy)
  end.
  destruct (Ht eq_refl) as [Ht1 Ht2].
  destruct (Hc eq_refl) as [Hc1 Hc2].
  destruct (Hx eq_refl) as [Hx1 Hx2].
  destruct (Hy eq_refl) as [Hy1 Hy2].
  repeat split; assumption.
Defined.



(** The fallback on the sample 1, 2, 3 with range [0, 10] and average
    5: three rows, the y value of the first between 3.5 and 6.5. *)
Lemma synthetic_rows_follow_the_summary_example :
  List.length (synthesize (summary_data sample_summary) 0
                 [num 1; num 2; num 3]) = 3
  /\ chartRows (summary_data sample_summary) None
     = Return (Some (synthesize (summary_data sample_summary) 0
                       [num 1; num 2; num 3]))
  /\ exists y : Q,
       nth_error (synthesize (summary_data sample_summary) 0
                    [num 1; num 2; num 3]) 0
       = Some [("x", num 1); ("y", VNum (Fin y))]
       /\ ((7 # 2) <= y /\ y <= 13 # 2)%Q.
Proof.
  destruct (synthetic_rows_follow_the_summary
              (summary_data sample_summary) None [num 1; num 2; num 3]
              (inject_Z 0) (inject_Z 10) (inject_Z 5)
              eq_refl eq_refl eq_refl eq_refl eq_refl)
    as (_ & Hrows & Hlen & Hnth).
  split; [exact Hlen |].
  split; [apply Hrows; discriminate |].
  destruct (Hnth 0 (num 1) eq_refl) as (noise & _ & Hrow & Hbound).
  eexists. split; [exact Hrow |].
  destruct Hbound as [B1 B2]; [discriminate |].
  split; [refine (Qle_trans _ _ _ _ B1) | refine (Qle_trans _ _ _ B2 _)];
    discriminate.
Defined.



(** ** Further runs of the extractor *)

(** A fragment with one level of nested braces is found and parsed;
    the rows of the state are not passed on this path. *)
Example extract_from_content :
  extractVisualizationData (VStr embedded_content) rows_only_state
  = Return {| visualization :=
                Some {| type := VStr "chart";
                        chart_type := VStr "line";
                        x_column := VUndefined;
                        y_column := VUndefined;
                        title := VStr "Sales";
                        text := VUndefined;
                        spec := VObj [("chart_type", VStr "line")];
                        data_summary := VUndefined;
                        image := VUndefined;
                        mimeType := VUndefined |};
              sqlResult := None |}.
Proof. reflexivity. Qed.

(** Braces nested twice defeat the pattern: nothing is found. *)
Example no_match_on_deep_nesting :
  Regex.find_match deep_content = None
  /\ extractVisualizationData (VStr deep_content) VUndefined
     = Return {| visualization := Some defaultVisualization;
                 sqlResult := None |}.
Proof. split; reflexivity. Qed.

(** With no state and an empty content the default descriptor comes
    back without rows, and nothing is rendered for it. *)
Example extract_from_nothing :
  extractVisualizationData (VStr EmptyString) VUndefined
  = Return {| visualization := Some defaultVisualization; sqlResult := None |}
  /\ Visualization (Some defaultVisualization) None = Return PNull.
Proof. split; reflexivity. Qed.

(** A row that is [null] makes the filter of the dispatcher throw. *)
Example null_row_throws :
  Visualization (Some radar_data) (Some [VNull]) = Throws.
Proof. reflexivity. Qed.

(** ** The further properties on concrete inputs *)

(** X1 on the chart descriptor without y column that has a text. *)
Lemma rendered_card_tells_its_path_witness :
  truthy (image (no_y_data (VStr "Jan ##"))) = false
  /\ chartRows (no_y_data (VStr "Jan ##")) (Some revenue_rows) = Return None
  /\ VStr "Jan ##" = text (no_y_data (VStr "Jan ##"))
  /\ truthy (VStr "Jan ##") = true.
Proof.
  exact (rendered_card_tells_its_path
           (no_y_data (VStr "Jan ##")) (Some revenue_rows)
           (PWrap (Some (TextCard VUndefined (VStr "Jan ##"))))
           (TextCard VUndefined (VStr "Jan ##")) eq_refl eq_refl).
Defined.


(** X3 on rows the second of which is [null]. *)
Lemma authoritative_rows_throw_on_null_row_witness :
  authoritativeRows radar_data
    (Some [VObj [("month", VStr "Jan"); ("sales", num 10)]; VNull])
  = Throws.
Proof.
  destruct (authoritative_rows_throw_on_null_row radar_data
              [VObj [("month", VStr "Jan"); ("sales", num 10)]; VNull]
              eq_refl eq_refl eq_refl)
    as [H _].
  apply H; reflexivity.
Defined.

(** X4 on the point made from the row of April. *)
Lemma authoritative_points_are_plottable_witness :
  (exists n : number,
     item_get [("month", VStr "Apr"); ("sales", VNum (Fin 0%Q))]
       (yResolved radar_data) = VNum n /\ n <> NaN)
  /\ nullish (item_get [("month", VStr "Apr"); ("sales", VNum (Fin 0%Q))]
                (xResolved radar_data)) = false.
Proof.
  assert (H : authoritativeRows radar_data (Some ragged_rows)
              = Return ragged_points) by reflexivity.
  apply (authoritative_points_are_plottable
           radar_data (Some ragged_rows) ragged_points
           eq_refl eq_refl eq_refl H).
  right; left; reflexivity.
Defined.

(** X5 on a summary whose range is a pair of [null]. *)
Lemma chart_card_throws_on_malformed_range_witness :
  ChartVisualization (summary_data null_range_summary)
    [[("x", num 1); ("y", num 2)]] = Throws.
Proof.
  destruct (chart_card_throws_on_malformed_range
              (summary_data null_range_summary)
              [("x", num 1); ("y", num 2)] [] eq_refl eq_refl eq_refl)
    as [H _].
  apply H. repeat split.
Defined.

(** X6 on the radar chart over the ragged rows. *)
Lemma dispatcher_returns_on_well_typed_data_witness :
  exists p, Visualization (Some radar_data) (Some ragged_rows) = Return p.
Proof.
  apply (dispatcher_returns_on_well_typed_data radar_data (Some ragged_rows));
    reflexivity.
Defined.

(** X7 on a descriptor of type image without image: its text is not
    shown. *)
Lemma image_path_outcomes_witness :
  Visualization (Some image_type_data) (Some revenue_rows)
  = Return (PWrap None).
Proof.
  destruct (image_path_outcomes image_type_data (Some revenue_rows)
              eq_refl eq_refl)
    as [H _].
  apply H. reflexivity.
Defined.

(** X8 on a summary whose sample is a string. *)
Lemma non_array_sample_throws_witness :
  Visualization (Some (summary_data string_sample_summary)) None = Throws.
Proof.
  apply (proj2 (non_array_sample_throws
                  (summary_data string_sample_summary) None
                  eq_refl eq_refl eq_refl eq_refl eq_refl)).
Defined.

(** X10 on the content with a well-formed fragment. *)
Lemma extracted_descriptor_is_complete_witness :
  exists d,
    Some d = Some d
    /\ truthy (type d) = true /\ truthy (chart_type d) = true
    /\ truthy (title d) = true
    /\ vizType d = type d /\ chartType d = chart_type d
    /\ chartTitle d = title d.
Proof.
  assert (He : exists e, extractVisualizationData (VStr embedded_content)
                           VUndefined = Return e)
    by (eexists; vm_compute; reflexivity).
  destruct He as [e He].
  destruct (extracted_descriptor_is_complete
              (VStr embedded_content) VUndefined e He)
    as (d & _ & H).
  exists d. split; [reflexivity | exact H].
Defined.

(** X11 on the visualization whose fields and [spec] disagree. *)
Lemma normalization_is_idempotent_witness :
  exists d,
    normalize conflicting_viz = Return d
    /\ normalize (toObject d) = Return d.
Proof.
  eexists. split; [reflexivity |].
  match goal with
  | |- normalize (toObject ?d) = _ =>
      exact (proj1 (normalization_is_idempotent
                      conflicting_viz d VUndefined eq_refl))
  end.
Defined.

(** X12 on a state whose first result path holds a message: the rows
    of [sql_result] are not handed on. *)
Lemma first_result_path_decides_the_rows_witness :
  optget shadowed_rows_state "sql_result" = VArr revenue_rows
  /\ rowsOf shadowed_rows_state = None.
Proof.
  split; [reflexivity |].
  apply (proj1 (first_result_path_decides_the_rows shadowed_rows_state));
    reflexivity.
Defined.

(** X13 on the content whose fragment does not parse and the state
    that only has rows. *)
Lemma default_descriptor_renders_nothing_witness :
  exists e,
    extractVisualizationData (VStr malformed_content) rows_only_state
    = Return e
    /\ sqlResult e = Some revenue_rows
    /\ Visualization (visualization e) (sqlResult e) = Return PNull.
Proof.
  assert (Hs : truthy (stateVizOf rows_only_state) = false) by reflexivity.
  assert (Hc : embeddedVisualization (VStr malformed_content) = None)
    by reflexivity.
  destruct (default_descriptor_renders_nothing
              (VStr malformed_content) rows_only_state Hs Hc)
    as (e & He & Hv).
  exists e. split; [exact He |]. split; [| exact Hv].
  assert (E : Return e
              = Return {| visualization := Some defaultVisualization;
                          sqlResult := Some revenue_rows |})
    by (rewrite <- He; reflexivity).
  injection E as ->. reflexivity.
Defined.

(** X14 on the content whose fragment does not parse. *)
Lemma find_match_sound_witness :
  exists before sp1 sp2 body after,
    malformed_content = before ++ (Regex.key ++ ": {oops}") ++ after
    /\ Regex.key ++ ": {oops}"
       = Regex.key ++ sp1 ++ ":" ++ sp2 ++ "{" ++ body ++ "}"
    /\ all_spaces sp1 = true /\ all_spaces sp2 = true
    /\ shallow false body = true.
Proof.
  apply (find_match_sound malformed_content (Regex.key ++ ": {oops}")).
  reflexivity.
Defined.

(** X15 on the second of two slices. *)
Lemma pie_cells_cycle_through_the_palette_witness :
  exists colour,
    nth_error (pieCells [slice "A" 5; slice "A" 5]) 1 = Some (Some colour)
    /\ nth_error COLORS (1 mod 8) = Some colour
    /\ In colour COLORS.
Proof.
  apply (proj1 (proj2 (pie_cells_cycle_through_the_palette
                         [slice "A" 5; slice "A" 5]))).
  apply le_n.
Defined.

(** X16 on the pie chart over the two rows of category A. *)
Lemma pie_over_sql_rows_reads_the_written_columns_witness :
  xColumn pie_data = VStr "cat" /\ yColumn pie_data = VStr "v"
  /\ exists (name : string) (n : number),
       pieSlice pie_data [("cat", VStr "A"); ("v", num 5)]
       = [("name", VStr name); ("value", VNum n)]
       /\ n <> NaN.
Proof.
  assert (Ha : authoritativeRows pie_data (Some duplicate_rows)
               = Return [[("cat", VStr "A"); ("v", num 5)];
                         [("cat", VStr "A"); ("v", num 5)]])
    by reflexivity.
  destruct (pie_over_sql_rows_reads_the_written_columns
              pie_data (Some duplicate_rows) _ eq_refl eq_refl eq_refl Ha)
    as (Hx & Hy & Hs); [discriminate |].
  split; [exact Hx |]. split; [exact Hy |].
  apply Hs. left; reflexivity.
Defined.

(** X17 on a fragment with a space before its body. *)
Lemma find_match_complete_witness :
  Regex.find_match
    ((Regex.key ++ EmptyString ++ ":" ++ " " ++ "{" ++ "oops" ++ "}") ++ " end")
  = Some (Regex.key ++ EmptyString ++ ":" ++ " " ++ "{" ++ "oops" ++ "}").
Proof.
  exact (find_match_complete EmptyString " " "oops" " end"
           eq_refl eq_refl eq_refl).
Defined.
